(** * awareutils.vision.img: the lazy-format image class [Img]

    A shallow embedding of [src/awareutils/vision/img.py].

    The class wraps either a numpy pixel buffer (tags [BGR], [RGB]) or a PIL
    image object (tag [PIL]) and delegates to four third-party libraries:
    numpy, OpenCV ([cv2]), Pillow ([PILImageModule]) and [piexif], plus the
    standard [json] module.

    - The in-memory array operations the class relies on
      ([flags.c_contiguous], [np.ascontiguousarray], slicing, [copy],
      [cv2.cvtColor], [PIL.Image.fromarray], [np.array(pil)], [Image.crop])
      are modelled concretely, on strided views of a flat buffer.
    - The file codecs, the EXIF codec and the JSON codec are an interface
      ([Collaborators]); theorems that need more than their signature state
      the contract they rely on as a hypothesis.
    - Methods that touch the file system or convert channel order run in a
      small monad [M] that threads the files and records the collaborator
      calls made.
    - [Img.resize] delegates to two resamplers, a second interface
      ([Resamplers]).  The drawing stubs, which only raise, are not
      embedded. *)

From Stdlib Require Import ZArith Lia List.
From Stdlib.Strings Require Import String Ascii Byte.
From stdpp Require Import base option list gmap strings.

Local Open Scope nat_scope.

(** ** Exceptions and results *)

Inductive exn : Type :=
  | RuntimeError (msg : string)
  | ValueError (msg : string)
  | KeyError
  | TypeError
  | AttributeError
  | Cv2Error
  | FileNotFoundError
  | CodecError (msg : string).

(** The spec's names for the two errors the class raises on an option it
    refuses; both are [RuntimeError]s in the source. *)
Definition ConflictingOption : exn :=
  RuntimeError
    "We're saving metadata in EXIF already, so it's unsupported for you to use it too!".
Definition UnsupportedOption : exn :=
  RuntimeError "PIL crops are always copys. I think?".

Inductive Result (A : Type) : Type :=
  | Ok (a : A)
  | Err (e : exn).
Arguments Ok {A} a.
Arguments Err {A} e.

Definition bytes : Type := list byte.

(** Python [str.encode("utf8")].  A Rocq [string] is already a byte string. *)
Definition encode_utf8 (s : string) : bytes := list_byte_of_string s.

(** ** numpy: arrays as strided views *)

Module np.

(** A three-axis array (height, width, channel) of 8-bit values: a view
    [shape], [strides], [offset] onto a flat buffer.  Strides are counted in
    items.  The program only ever slices with step 1, so strides stay
    non-negative. *)
Record ndarray : Type := mk_ndarray {
  buf : list Z;
  offset : nat;
  h : nat;
  w : nat;
  c : nat;
  s0 : nat;
  s1 : nat;
  s2 : nat
}.

(** [a[i, j, k]] *)
Definition get (a : ndarray) (i j k : nat) : Z :=
  nth (offset a + i * s0 a + j * s1 a + k * s2 a) (buf a) 0%Z.

(** [a[i, j]] : the channel values of one pixel. *)
Definition pixel (a : ndarray) (i j : nat) : list Z :=
  map (fun k => get a i j k) (seq 0 (c a)).

(** [a.tolist()] *)
Definition elements (a : ndarray) : list (list (list Z)) :=
  map (fun i => map (fun j => pixel a i j) (seq 0 (w a))) (seq 0 (h a)).

(** [a.shape] *)
Definition shape (a : ndarray) : nat * nat * nat := (h a, w a, c a).

(** Row-major flattening of a nested list. *)
Definition flatten (e : list (list (list Z))) : list Z :=
  concat (map (@concat Z) e).

(** A nested list with [hh] rows of [ww] pixels of [cc] values. *)
Definition shaped (hh ww cc : nat) (e : list (list (list Z))) : Prop :=
  length e = hh /\
  Forall (fun row => length row = ww /\ Forall (fun px => length px = cc) row) e.

(** A fresh row-major array over [data]. *)
Definition of_flat (hh ww cc : nat) (data : list Z) : ndarray :=
  mk_ndarray data 0 hh ww cc (ww * cc) cc 1.

(** [a.flags.c_contiguous], numpy's rule: an array without elements is
    contiguous; otherwise every axis of length other than 1 must have the
    row-major stride. *)
Definition c_contiguous (a : ndarray) : bool :=
  if (h a * w a * c a =? 0) then true
  else ((c a =? 1) || (s2 a =? 1))
       && ((w a =? 1) || (s1 a =? c a))
       && ((h a =? 1) || (s0 a =? w a * c a)).

(** [a.copy()] : a fresh row-major array with the same elements. *)
Definition copy (a : ndarray) : ndarray :=
  of_flat (h a) (w a) (c a) (flatten (elements a)).

(** [np.ascontiguousarray(a)] : [a] itself when it is contiguous, else a
    row-major copy. *)
Definition ascontiguousarray (a : ndarray) : ndarray :=
  if c_contiguous a then a else copy a.

(** Python's normalisation of one slice bound against an axis of length
    [len]: negative bounds count from the end, then clamp to [0, len]. *)
Definition slice_bound (b : Z) (len : nat) : nat :=
  let b' := if (b <? 0)%Z then (b + Z.of_nat len)%Z else b in
  Z.to_nat (Z.max 0 (Z.min b' (Z.of_nat len))).

(** [a[y0:y1, x0:x1]] : a view on the same buffer. *)
Definition slice2 (a : ndarray) (y0 y1 x0 x1 : Z) : ndarray :=
  let ys := slice_bound y0 (h a) in
  let ye := slice_bound y1 (h a) in
  let xs := slice_bound x0 (w a) in
  let xe := slice_bound x1 (w a) in
  mk_ndarray (buf a) (offset a + ys * s0 a + xs * s1 a)
             (ye - ys) (xe - xs) (c a) (s0 a) (s1 a) (s2 a).

End np.

(** ** OpenCV: channel-order conversion *)

Module cv2.

(** [cv2.COLOR_BGR2RGB] and [cv2.COLOR_RGB2BGR] (one numeric code in OpenCV). *)
Inductive ColorConversionCode : Type :=
  | COLOR_BGR2RGB
  | COLOR_RGB2BGR.

(** One pixel with channels 0 and 2 exchanged; a fourth (alpha) channel is
    dropped, as OpenCV does for these codes. *)
Definition swap_rb (p : list Z) : list Z :=
  [nth 2 p 0%Z; nth 1 p 0%Z; nth 0 p 0%Z].

(** The arrays the colour conversions accept: not empty, 3 or 4 channels. *)
Definition accepts (a : np.ndarray) : bool :=
  (0 <? np.h a) && (0 <? np.w a) && ((np.c a =? 3) || (np.c a =? 4)).

(** [cv2.cvtColor(a, code)] for the two codes above: the input must be
    non-empty with 3 or 4 channels, the output is a fresh row-major
    3-channel array. *)
Definition swap_channels (a : np.ndarray) : np.ndarray :=
  np.of_flat (np.h a) (np.w a) 3
    (np.flatten (map (map swap_rb) (np.elements a))).

Definition cvtColor (a : np.ndarray) (code : ColorConversionCode)
  : Result np.ndarray :=
  if accepts a then Ok (swap_channels a) else Err Cv2Error.

End cv2.

(** ** Pillow: image objects *)

Module PILImageModule.

(** [PIL.Image.Image]: dimensions, band count, row-major pixel data and the
    [info] dictionary the decoder fills in. *)
Record Image : Type := mk_Image {
  width : nat;
  height : nat;
  bands : nat;
  data : list Z;
  info : gmap string bytes
}.

(** [PIL.Image.fromarray(a)], for 8-bit three-axis arrays: 2, 3 or 4
    channels are accepted (modes LA, RGB, RGBA). *)
Definition fromarray (a : np.ndarray) : Result Image :=
  if (np.c a =? 2) || (np.c a =? 3) || (np.c a =? 4)
  then Ok (mk_Image (np.w a) (np.h a) (np.c a)
             (np.flatten (np.elements a)) ∅)
  else Err TypeError.

(** The pixel of [im] at column [x], row [y]; zeros outside the image. *)
Definition getpixel (im : Image) (x y : Z) : list Z :=
  if ((0 <=? x)%Z && (x <? Z.of_nat (width im))%Z
      && (0 <=? y)%Z && (y <? Z.of_nat (height im))%Z)%bool
  then map (fun k => nth ((Z.to_nat y * width im + Z.to_nat x) * bands im + k)
                       (data im) 0%Z) (seq 0 (bands im))
  else repeat 0%Z (bands im).

(** [im.crop((left, upper, right, lower))]: always a new image, of size
    [right - left] by [lower - upper]. *)
Definition crop (im : Image) (box : Z * Z * Z * Z) : Result Image :=
  let '(bl, bu, br, bd) := box in
  if ((br <? bl)%Z || (bd <? bu)%Z)%bool
  then Err (ValueError "Coordinate is less than its opposite")
  else
    let cw := Z.to_nat (br - bl) in
    let ch := Z.to_nat (bd - bu) in
    Ok (mk_Image cw ch (bands im)
          (np.flatten
             (map (fun i => map (fun j => getpixel im (bl + Z.of_nat j)%Z
                                                     (bu + Z.of_nat i)%Z)
                                (seq 0 cw))
                  (seq 0 ch)))
          (info im)).

End PILImageModule.

(** [np.array(pil)] : the pixels of a PIL image as a fresh row-major array. *)
Definition np_array (im : PILImageModule.Image) : np.ndarray :=
  np.of_flat (PILImageModule.height im) (PILImageModule.width im)
             (PILImageModule.bands im) (PILImageModule.data im).

(** ** Geometry types of [awareutils.vision] *)

(** Modelled from the spec: [awareutils.vision.img_size.ImgSize] is imported
    by the source but not part of it; the spec describes it as the cached
    size with a width and a height. *)
Record ImgSize : Type := mk_ImgSize { size_w : nat; size_h : nat }.

(** Modelled from the spec: [awareutils.vision.shape.Rectangle] is imported
    by the source but not part of it; the source reads its four corner
    coordinates. *)
Record Rectangle : Type := mk_Rectangle { x0 : Z; y0 : Z; x1 : Z; y1 : Z }.

(** Modelled from the spec: [Rectangle.slice_array] is not part of the
    source.  The spec: the rectangular region [x0, y0] to [x1, y1],
    inclusive on both axes, taken as a view of the buffer. *)
Definition slice_array (r : Rectangle) (a : np.ndarray) : np.ndarray :=
  np.slice2 a (y0 r) (y1 r + 1) (x0 r) (x1 r + 1).

(** ** Python values crossing the collaborator interfaces *)

(** Values of the keyword arguments forwarded to [PIL.Image.save]. *)
Inductive kwval : Type :=
  | KwBool (b : bool)
  | KwInt (z : Z)
  | KwStr (s : string)
  | KwBytes (b : bytes).

(** [piexif.ExifIFD.UserComment], the tag number of the field that holds the
    metadata.  The dictionary [piexif.load] returns and [piexif.dump] takes
    maps an IFD name to a map from tag numbers to values. *)
Module piexif.
Module ExifIFD.
Definition UserComment : Z := 37510%Z.
End ExifIFD.
End piexif.

(** The [path] argument: a [str], a [pathlib.Path], or anything else. *)
Inductive PathLike : Type :=
  | PyStr (s : string)
  | PyPath (s : string)
  | PyOther.

(** [isinstance(path, (Path, str))] and [str(path)] in one step. *)
Definition path_str (p : PathLike) : option string :=
  match p with
  | PyStr s | PyPath s => Some s
  | PyOther => None
  end.

(** ** Collaborators specified only at their interface *)

(** The codecs the class calls: [json], [piexif], the encoders and decoders
    of Pillow and OpenCV.  [PyObject] is the type of the Python values other
    than [None] kept as metadata, [File] the content of a file on disk.
    [json.loads] returns a Python value, which is [None] for the JSON text
    [null].  [cv2.imwrite] raises, or returns whether it wrote the file:
    [Ok None] is the call that returns [False] and writes nothing. *)
Class Collaborators : Type := {
  PyObject : Type;
  File : Type;
  json_dumps : PyObject -> Result string;
  json_loads : bytes -> Result (option PyObject);
  piexif_dump : gmap string (gmap Z bytes) -> Result bytes;
  piexif_load : bytes -> Result (gmap string (gmap Z bytes));
  pil_encode : string -> PILImageModule.Image -> gmap string kwval -> Result File;
  pil_decode : File -> Result PILImageModule.Image;
  cv2_encode : string -> np.ndarray -> Result (option File);
  cv2_decode : File -> option np.ndarray
}.

(** Calls to collaborators that are visible from outside: channel-order
    conversions, file reads and writes, log lines. *)
Inductive Call : Type :=
  | CallCvtColor (code : cv2.ColorConversionCode)
  | CallImread (path : string)
  | CallImwrite (path : string) (a : np.ndarray)
  | CallPilOpen (path : string)
  | CallPilSave (path : string) (im : PILImageModule.Image)
                (kwargs : gmap string kwval)
  | CallLoggerWarn (msg : string).

Definition is_CallPilSave (x : Call) : bool :=
  match x with CallPilSave _ _ _ => true | _ => false end.
Definition is_CallImwrite (x : Call) : bool :=
  match x with CallImwrite _ _ => true | _ => false end.
Definition is_CallCvtColor (x : Call) : bool :=
  match x with CallCvtColor _ => true | _ => false end.
Definition is_RGB2BGR (x : Call) : bool :=
  match x with CallCvtColor cv2.COLOR_RGB2BGR => true | _ => false end.

(** Which encoder a run used, and how many conversions it made. *)
Definition uses_object_encoder (ev : list Call) : bool := existsb is_CallPilSave ev.
Definition uses_buffer_encoder (ev : list Call) : bool := existsb is_CallImwrite ev.
Definition count_calls (p : Call -> bool) (ev : list Call) : nat :=
  length (List.filter p ev).

(** ** The class [Img] *)

(** [ImgType] *)
Inductive ImgType : Type :=
  | BGR
  | RGB
  | PIL.

(** [itype.name] *)
Definition itype_name (t : ImgType) : string :=
  match t with
  | BGR => "BGR"
  | RGB => "RGB"
  | PIL => "PIL"
  end.

(** The dynamic type of [source]: [Union[np.ndarray, PIL.Image.Image]]. *)
Inductive Source : Type :=
  | SArr (a : np.ndarray)
  | SPil (p : PILImageModule.Image).

Section ImgClass.
Context {collab : Collaborators}.

(** *** Effects: files on disk and the calls made *)

(** A computation reads and writes the files and appends to the record of
    calls; an exception ends it, keeping what was done before. *)
Definition M (A : Type) : Type :=
  gmap string File -> Result A * gmap string File * list Call.

Definition ret {A} (a : A) : M A := fun fs => (Ok a, fs, []).

Definition raise {A} (e : exn) : M A := fun fs => (Err e, fs, []).

Definition bind {A B} (m : M A) (k : A -> M B) : M B :=
  fun fs =>
    match m fs with
    | (Ok a, fs1, ev1) =>
        match k a fs1 with
        | (r, fs2, ev2) => (r, fs2, ev1 ++ ev2)
        end
    | (Err e, fs1, ev1) => (Err e, fs1, ev1)
    end.

Definition lift {A} (r : Result A) : M A := fun fs => (r, fs, []).

Definition emit (x : Call) : M unit := fun fs => (Ok tt, fs, [x]).

Notation "'do' x <- m ; k" := (bind m (fun x => k))
  (at level 10, x name, m at level 100, k at level 200).
Notation "'do_' m ; k" := (bind m (fun _ => k))
  (at level 10, m at level 100, k at level 200).

(** The three components of a run. *)
Definition result_of {A} (x : Result A * gmap string File * list Call) : Result A :=
  fst (fst x).
Definition files_of {A} (x : Result A * gmap string File * list Call)
  : gmap string File := snd (fst x).
Definition calls_of {A} (x : Result A * gmap string File * list Call)
  : list Call := snd x.

(** *** Collaborator calls *)

(** [cv2.cvtColor(a, code)] *)
Definition call_cvtColor (a : np.ndarray) (code : cv2.ColorConversionCode)
  : M np.ndarray :=
  do_ emit (CallCvtColor code);
  lift (cv2.cvtColor a code).

(** [cv2.imread(path)] : [None] when the file is missing or unreadable. *)
Definition call_imread (path : string) : M (option np.ndarray) :=
  do_ emit (CallImread path);
  fun fs => (Ok (fs !! path ≫= cv2_decode), fs, []).

(** [cv2.imwrite(path, a)] : no encoder parameters are passed.  The call
    returns [True] when it wrote the file and [False] when it did not. *)
Definition call_imwrite (path : string) (a : np.ndarray) : M bool :=
  do_ emit (CallImwrite path a);
  fun fs =>
    match cv2_encode path a with
    | Ok (Some f) => (Ok true, <[path := f]> fs, [])
    | Ok None => (Ok false, fs, [])
    | Err e => (Err e, fs, [])
    end.

(** [PILImageModule.open(path)] *)
Definition call_pil_open (path : string) : M PILImageModule.Image :=
  do_ emit (CallPilOpen path);
  fun fs =>
    match fs !! path with
    | Some f => (pil_decode f, fs, [])
    | None => (Err FileNotFoundError, fs, [])
    end.

(** [pil.save(path, **kwargs)] *)
Definition call_pil_save (path : string) (im : PILImageModule.Image)
    (kwargs : gmap string kwval) : M unit :=
  do_ emit (CallPilSave path im kwargs);
  fun fs =>
    match pil_encode path im kwargs with
    | Ok f => (Ok tt, <[path := f]> fs, [])
    | Err e => (Err e, fs, [])
    end.

(** *** The object *)

Record Img : Type := mk_Img {
  source : Source;
  itype : ImgType;
  metadata : option PyObject;
  make_arrays_contiguous : bool;
  size : ImgSize;
  img_h : nat;
  img_w : nat
}.

(** [Img._get_size], reading [self.itype] and [self.source]. *)
Definition _get_size (self_itype : ImgType) (self_source : Source)
  : Result ImgSize :=
  match self_itype, self_source with
  | PIL, SPil p =>
      Ok (mk_ImgSize (PILImageModule.width p) (PILImageModule.height p))
  | (BGR | RGB), SArr a => Ok (mk_ImgSize (np.w a) (np.h a))
  | _, _ => Err AttributeError
  end.

(** [Img.__init__].  [self.source] is assigned first; the contiguous copy
    made afterwards is bound to the local name [source] only.  The final
    [else] of the source (an unknown tag) cannot be reached with the closed
    enumeration. *)
Definition __init__ (source : Source) (itype : ImgType)
    (metadata : option PyObject) (make_arrays_contiguous : bool) : M Img :=
  let self_source := source in
  let self_itype := itype in
  let self_metadata := metadata in
  let self_make_arrays_contiguous := make_arrays_contiguous in
  do source <-
    match self_itype, source with
    | PIL, SPil _ => ret source
    | PIL, SArr _ =>
        raise (RuntimeError "Set source type to PIL but source isn't a PIL Image")
    | (RGB | BGR), SArr a =>
        if negb (np.c_contiguous a) then
          if make_arrays_contiguous then ret (SArr (np.ascontiguousarray a))
          else
            do_ emit (CallLoggerWarn
                   "Source isn't contiguous which can cause subtle OpenCV problems.");
            ret source
        else ret source
    | (RGB | BGR), SPil _ =>
        raise (RuntimeError
                 ("Set source to " ++ itype_name self_itype ++ " but isn't an np.ndarray"))
    end;
  do self_size <- lift (_get_size self_itype self_source);
  ret (mk_Img self_source self_itype self_metadata self_make_arrays_contiguous
         self_size (size_h self_size) (size_w self_size)).

(** [Img.rgb].  Here and below, a tag that disagrees with the dynamic type
    of [source] (a state [__init__] rules out) ends in a type error. *)
Definition rgb (self : Img) : M np.ndarray :=
  do arr <-
    match itype self, source self with
    | PIL, SPil p => ret (np_array p)
    | RGB, SArr a => ret a
    | BGR, SArr a => call_cvtColor a cv2.COLOR_BGR2RGB
    | _, _ => raise TypeError
    end;
  if make_arrays_contiguous self then ret (np.ascontiguousarray arr)
  else ret arr.

(** [Img.bgr] *)
Definition bgr (self : Img) : M np.ndarray :=
  do arr <-
    match itype self, source self with
    | PIL, SPil p => call_cvtColor (np_array p) cv2.COLOR_RGB2BGR
    | RGB, SArr a => call_cvtColor a cv2.COLOR_RGB2BGR
    | BGR, SArr a => ret a
    | _, _ => raise TypeError
    end;
  if make_arrays_contiguous self then ret (np.ascontiguousarray arr)
  else ret arr.

(** [Img.pil] *)
Definition pil (self : Img) : M PILImageModule.Image :=
  match itype self, source self with
  | PIL, SPil p => ret p
  | RGB, SArr a => lift (PILImageModule.fromarray (np.ascontiguousarray a))
  | BGR, SArr a =>
      do x <- call_cvtColor (np.ascontiguousarray a) cv2.COLOR_BGR2RGB;
      lift (PILImageModule.fromarray x)
  | _, _ => raise TypeError
  end.

(** [d[k]] on a dictionary: [KeyError] when the key is absent. *)
Definition getitem {K V} `{Countable K} (d : gmap K V) (k : K) : Result V :=
  match d !! k with
  | Some v => Ok v
  | None => Err KeyError
  end.

(** The metadata read in [Img.open] when [load_metadata] is set. *)
Definition read_metadata (im : PILImageModule.Image) : M (option PyObject) :=
  match PILImageModule.info im !! "exif" with
  | Some meta =>
      do d <- lift (piexif_load meta);
      do ifd <- lift (getitem d "Exif");
      do meta <- lift (getitem ifd piexif.ExifIFD.UserComment);
      do meta <- lift (json_loads meta);
      ret meta
  | None => ret None
  end.

(** [Img.open] *)
Definition open (path : PathLike) (itype : ImgType) (load_metadata : bool)
  : M Img :=
  match path_str path with
  | None => raise (ValueError "path must be a Path or str")
  | Some path =>
      if negb load_metadata then
        match itype with
        | BGR =>
            do source <- call_imread path;
            match source with
            | None => raise (RuntimeError "Failed to read with cv2")
            | Some source => __init__ (SArr source) BGR None true
            end
        | RGB =>
            do source <- call_imread path;
            match source with
            | None => raise (RuntimeError "Failed to read with cv2")
            | Some source =>
                do source <- call_cvtColor source cv2.COLOR_BGR2RGB;
                __init__ (SArr source) RGB None true
            end
        | PIL =>
            do p <- call_pil_open path;
            __init__ (SPil p) PIL None true
        end
      else
        do p <- call_pil_open path;
        do meta <- read_metadata p;
        match itype with
        | BGR =>
            let rgb := np_array p in
            do source <- call_cvtColor rgb cv2.COLOR_RGB2BGR;
            __init__ (SArr source) BGR meta true
        | RGB => __init__ (SArr (np_array p)) RGB meta true
        | PIL => __init__ (SPil p) PIL meta true
        end
  end.

Definition open_pil (path : PathLike) (load_metadata : bool) : M Img :=
  open path PIL load_metadata.
Definition open_bgr (path : PathLike) (load_metadata : bool) : M Img :=
  open path BGR load_metadata.
Definition open_rgb (path : PathLike) (load_metadata : bool) : M Img :=
  open path RGB load_metadata.

(** [Img.save].  The value [cv2.imwrite] returns is dropped. *)
Definition save (self : Img) (path : PathLike) (save_metadata : bool)
    (kwargs : gmap string kwval) : M unit :=
  match path_str path with
  | None => raise (ValueError "path must be a Path or str")
  | Some path =>
      let should_save_metadata :=
        save_metadata && bool_decide (is_Some (metadata self)) in
      match itype self, should_save_metadata with
      | PIL, _ | _, true =>
          do p <- pil self;
          do kwargs <-
            match metadata self, should_save_metadata with
            | Some md, true =>
                match kwargs !! "exif" with
                | Some _ => raise ConflictingOption
                | None =>
                    do s <- lift (json_dumps md);
                    let exif_dict : gmap string (gmap Z bytes) :=
                      {[ "Exif" := {[ piexif.ExifIFD.UserComment := encode_utf8 s ]} ]} in
                    do b <- lift (piexif_dump exif_dict);
                    ret (<["exif" := KwBytes b]> kwargs)
                end
            | _, _ => ret kwargs
            end;
          let kwargs :=
            match kwargs !! "optimize" with
            | None => <["optimize" := KwBool true]> kwargs
            | Some _ => kwargs
            end in
          call_pil_save path p kwargs
      | RGB, false =>
          match source self with
          | SArr a =>
              do x <- call_cvtColor a cv2.COLOR_RGB2BGR;
              do_ call_imwrite path x;
              ret tt
          | SPil _ => raise TypeError
          end
      | BGR, false =>
          match source self with
          | SArr a =>
              do_ call_imwrite path a;
              ret tt
          | SPil _ => raise TypeError
          end
      end
  end.

(** [Img.crop] *)
Definition crop (self : Img) (rectangle : Rectangle) (copy : bool) : M Img :=
  match itype self, source self with
  | PIL, SPil p =>
      if negb copy then raise UnsupportedOption
      else
        do src <- lift (PILImageModule.crop p
                          (x0 rectangle, y0 rectangle,
                           (x1 rectangle + 1)%Z, (y1 rectangle + 1)%Z));
        __init__ (SPil src) (itype self) (metadata self) true
  | PIL, SArr _ =>
      if negb copy then raise UnsupportedOption
      else raise AttributeError
  | (RGB | BGR), SArr a =>
      let src := slice_array rectangle a in
      let src := if copy then np.copy src else src in
      __init__ (SArr src) (itype self) (metadata self) true
  | (RGB | BGR), SPil _ => raise TypeError
  end.

(** [Img.from_bgr], [Img.from_rgb], [Img.from_pil] *)
Definition from_bgr (array : np.ndarray) (metadata : option PyObject)
    (make_arrays_contiguous : bool) : M Img :=
  __init__ (SArr array) BGR metadata make_arrays_contiguous.
Definition from_rgb (array : np.ndarray) (metadata : option PyObject)
    (make_arrays_contiguous : bool) : M Img :=
  __init__ (SArr array) RGB metadata make_arrays_contiguous.
Definition from_pil (p : PILImageModule.Image) (metadata : option PyObject)
  : M Img :=
  __init__ (SPil p) PIL metadata true.

End ImgClass.

Notation "'do' x <- m ; k" := (bind m (fun x => k))
  (at level 10, x name, m at level 100, k at level 200).
Notation "'do_' m ; k" := (bind m (fun _ => k))
  (at level 10, m at level 100, k at level 200).

(** ** Vocabulary of the properties *)

Section Vocabulary.
Context {collab : Collaborators}.

(** The tag agrees with the dynamic type of the source, as [__init__]
    enforces. *)
Definition consistent (img : Img) : Prop :=
  match itype img, source img with
  | PIL, SPil _ => True
  | (BGR | RGB), SArr _ => True
  | _, _ => False
  end.

(** A consistent image whose buffer, if any, is a non-empty colour picture
    (3 or 4 channels): one that the channel-order conversions accept. *)
Definition well_formed (img : Img) : Prop :=
  match itype img, source img with
  | PIL, SPil _ => True
  | (BGR | RGB), SArr a => cv2.accepts a = true
  | _, _ => False
  end.

(** A consistent image that is a non-empty colour picture whatever form it
    is held in. *)
Definition colour_picture (img : Img) : Prop :=
  consistent img
  /\ cv2.accepts match source img with
                 | SArr a => a
                 | SPil p => np_array p
                 end = true.

(** The conversions [Img.pil] makes, by tag. *)
Definition pil_conversions (t : ImgType) : list Call :=
  match t with
  | BGR => [CallCvtColor cv2.COLOR_BGR2RGB]
  | _ => []
  end.

(** The spec's [asRGB(B)] for a buffer held as BGR, and [asBGR(R)] for a
    buffer held as RGB: wrap, then convert. *)
Definition asRGB_of_bgr (b : np.ndarray) (mac : bool) : M np.ndarray :=
  do img <- from_bgr b None mac;
  rgb img.

Definition asBGR_of_rgb (r : np.ndarray) (mac : bool) : M np.ndarray :=
  do img <- from_rgb r None mac;
  bgr img.

(** [asRGB(B)], [asBGR(asRGB(B))] and [asRGB(asBGR(asRGB(B)))]. *)
Definition rgb_bgr_rgb (b : np.ndarray) (mac : bool)
  : M (np.ndarray * np.ndarray * np.ndarray) :=
  do r1 <- asRGB_of_bgr b mac;
  do b2 <- asBGR_of_rgb r1 mac;
  do r3 <- asRGB_of_bgr b2 mac;
  ret (r1, b2, r3).

(** [x] has the shape of [y] and, at every pixel, channels 0 and 2 of [y]
    exchanged and channel 1 of [y] unchanged. *)
Definition channels_swapped (x y : np.ndarray) : Prop :=
  np.shape x = np.shape y
  /\ forall i j, i < np.h y -> j < np.w y ->
       np.get x i j 0 = np.get y i j 2
       /\ np.get x i j 1 = np.get y i j 1
       /\ np.get x i j 2 = np.get y i j 0.

(** The bytes of a keyword argument, when it is a [bytes] value. *)
Definition kw_bytes (v : kwval) : option bytes :=
  match v with
  | KwBytes b => Some b
  | _ => None
  end.

(** Contract of the object codec for the container format of [path]: what
    it writes can be read back, with the dimensions of the picture and with
    the [exif] option as the [exif] entry of [info]. *)
Definition pil_codec_keeps_exif (path : string) : Prop :=
  forall im kwargs f,
    pil_encode path im kwargs = Ok f ->
    exists im',
      pil_decode f = Ok im'
      /\ PILImageModule.info im' !! "exif" = kwargs !! "exif" ≫= kw_bytes
      /\ PILImageModule.width im' = PILImageModule.width im
      /\ PILImageModule.height im' = PILImageModule.height im
      /\ PILImageModule.bands im' = PILImageModule.bands im.

(** Contract of the EXIF codec: a block dumped with the single field
    UserComment loads as a dictionary holding that field. *)
Definition piexif_keeps_user_comment : Prop :=
  forall b blob,
    piexif_dump {[ "Exif" := {[ piexif.ExifIFD.UserComment := b ]} ]} = Ok blob ->
    exists d ifd,
      piexif_load blob = Ok d
      /\ d !! "Exif" = Some ifd
      /\ ifd !! piexif.ExifIFD.UserComment = Some b.

(** [m] is JSON-serializable: [json.dumps] accepts it and [json.loads]
    reads the text back as an equal value. *)
Definition json_serializable (m : PyObject) : Prop :=
  exists s, json_dumps m = Ok s /\ json_loads (encode_utf8 s) = Ok (Some m).

(** [effective] metadata saving, and the routing condition of [save]. *)
Definition should_save_metadata (img : Img) (save_metadata : bool) : bool :=
  save_metadata && bool_decide (is_Some (metadata img)).

Definition routed_to_object_encoder (img : Img) (save_metadata : bool) : bool :=
  should_save_metadata img save_metadata
  || match itype img with PIL => true | _ => false end.

(** Nothing stops [save] before it reaches the object encoder: when the
    metadata is to be embedded, the caller gave no [exif] option and the
    metadata can be serialised into an EXIF block. *)
Definition metadata_ready (img : Img) (save_metadata : bool)
    (kwargs : gmap string kwval) : Prop :=
  should_save_metadata img save_metadata = true ->
  kwargs !! "exif" = None
  /\ exists md s b,
       metadata img = Some md
       /\ json_dumps md = Ok s
       /\ piexif_dump {[ "Exif" := {[ piexif.ExifIFD.UserComment := encode_utf8 s ]} ]}
          = Ok b.

(** A rectangle inside a picture of [ww] by [hh] pixels. *)
Definition within_bounds (r : Rectangle) (ww hh : nat) : Prop :=
  (0 <= x0 r /\ x0 r <= x1 r /\ x1 r < Z.of_nat ww
   /\ 0 <= y0 r /\ y0 r <= y1 r /\ y1 r < Z.of_nat hh)%Z.

End Vocabulary.

(** ** A reference implementation of the collaborators

    Small stand-ins for the codecs, on which the class can be run:
    a Python value is represented by its canonical JSON text (the text
    [null] is [None]), a file stores the picture in RGB order together with
    the EXIF block given on save, an EXIF block is a marker byte followed by
    the UserComment payload, and nothing can be written under
    [/nonexistent/] (there [cv2.imwrite] returns [False]). *)

Module Mock.

Definition dumps (o : string) : Result string := Ok o.

Definition loads (b : bytes) : Result (option string) :=
  let s := string_of_list_byte b in
  if String.eqb s "null" then Ok None else Ok (Some s).

Definition exif_dump (d : gmap string (gmap Z bytes)) : Result bytes :=
  match d !! "Exif" ≫= (fun ifd => ifd !! piexif.ExifIFD.UserComment) with
  | Some b => Ok (x01 :: b)
  | None => Ok [x00]
  end.

Definition exif_load (b : bytes) : Result (gmap string (gmap Z bytes)) :=
  match b with
  | x01 :: payload =>
      Ok (<["0th" := ∅]> {[ "Exif" := {[ piexif.ExifIFD.UserComment := payload ]} ]})
  | x00 :: _ => Ok (<["0th" := ∅]> {[ "Exif" := ∅ ]})
  | _ => Err (CodecError "not an EXIF block")
  end.

Definition encode_pil (path : string) (im : PILImageModule.Image)
    (kwargs : gmap string kwval) : Result PILImageModule.Image :=
  Ok (PILImageModule.mk_Image
        (PILImageModule.width im) (PILImageModule.height im)
        (PILImageModule.bands im) (PILImageModule.data im)
        match kwargs !! "exif" with
        | Some (KwBytes b) => {[ "exif" := b ]}
        | _ => ∅
        end).

Definition decode_pil (f : PILImageModule.Image) : Result PILImageModule.Image :=
  Ok f.

Definition encode_cv2 (path : string) (a : np.ndarray)
  : Result (option PILImageModule.Image) :=
  match cv2.cvtColor a cv2.COLOR_BGR2RGB with
  | Ok x =>
      match PILImageModule.fromarray x with
      | Ok im => if String.prefix "/nonexistent/" path then Ok None else Ok (Some im)
      | Err e => Err e
      end
  | Err e => Err e
  end.

Definition decode_cv2 (f : PILImageModule.Image) : option np.ndarray :=
  match cv2.cvtColor (np_array f) cv2.COLOR_RGB2BGR with
  | Ok x => Some x
  | Err _ => None
  end.

#[export] Instance collaborators : Collaborators := {|
  PyObject := string;
  File := PILImageModule.Image;
  json_dumps := dumps;
  json_loads := loads;
  piexif_dump := exif_dump;
  piexif_load := exif_load;
  pil_encode := encode_pil;
  pil_decode := decode_pil;
  cv2_encode := encode_cv2;
  cv2_decode := decode_cv2
|}.

(** A 2-by-2 picture with three channels, as a row-major buffer. *)
Definition buf2x2 : list Z :=
  [10; 20; 30;  11; 21; 31;
   12; 22; 32;  13; 23; 33]%Z.
Definition arr2x2 : np.ndarray := np.of_flat 2 2 3 buf2x2.

(** Its left column, [arr2x2[:, 0:1]]: a view that is not contiguous. *)
Definition column0 : np.ndarray := np.slice2 arr2x2 0 2 0 1.

Definition pil2x2 : PILImageModule.Image :=
  PILImageModule.mk_Image 2 2 3 buf2x2 ∅.

(** The JSON text of an empty mapping. *)
Definition empty_mapping : string := "{}".

(** A stored photo whose EXIF block holds no field at all, and a disk
    holding it. *)
Definition photo_without_comment : PILImageModule.Image :=
  PILImageModule.mk_Image 2 2 3 buf2x2 {[ "exif" := [x00] ]}.
Definition disk : gmap string PILImageModule.Image :=
  {[ "photo.jpg" := photo_without_comment ]}.

(** Images over these collaborators: the reference picture held as BGR
    with metadata, as a PIL object, and its left column held as RGB. *)
Definition bgr2x2 : @Img collaborators :=
  mk_Img (SArr arr2x2) BGR (Some empty_mapping) true (mk_ImgSize 2 2) 2 2.
Definition pil_img2x2 : @Img collaborators :=
  mk_Img (SPil pil2x2) PIL None true (mk_ImgSize 2 2) 2 2.
Definition rgb_column0 : @Img collaborators :=
  mk_Img (SArr column0) RGB None true (mk_ImgSize 1 2) 2 1.

End Mock.

(** ** Resizing, and the vocabulary of the further properties *)

(** [cv2.resize(src, dsize)] and [PIL.Image.Image.resize(size=...)]; both
    take the target size as (width, height). *)
Class Resamplers : Type := {
  cv2_resize : np.ndarray -> Z * Z -> Result np.ndarray;
  pil_resize : PILImageModule.Image -> Z * Z -> Result PILImageModule.Image
}.

Section Further.
Context {collab : Collaborators} {resamplers : Resamplers}.

(** [Img.resize] *)
Definition resize (self : Img) (width height : Z) : M Img :=
  match itype self, source self with
  | PIL, SPil p =>
      do src <- lift (pil_resize p (width, height));
      __init__ (SPil src) (itype self) (metadata self) true
  | (RGB | BGR), SArr a =>
      do src <- lift (cv2_resize a (width, height));
      __init__ (SArr src) (itype self) (metadata self) true
  | PIL, SArr _ => raise TypeError
  | (RGB | BGR), SPil _ => raise TypeError
  end.


(** The cached [size], [h], [w] are the dimensions of the source: axis 0
    and axis 1 of a buffer, [height] and [width] of a PIL object. *)
Definition img_invariant (img : Img) : Prop :=
  _get_size (itype img) (source img) = Ok (size img)
  /\ img_h img = size_h (size img)
  /\ img_w img = size_w (size img).

(** The picture an image holds, as an array in the channel order of its
    form. *)
Definition pixels (img : Img) : np.ndarray :=
  match source img with
  | SArr a => a
  | SPil p => np_array p
  end.

(** A computation that leaves every file as it is, and one that leaves
    every file but [p] as it is. *)
Definition read_only {A} (m : M A) : Prop :=
  forall fs, files_of (m fs) = fs.

Definition only_writes (p : string) {A} (m : M A) : Prop :=
  forall fs q, q <> p -> files_of (m fs) !! q = fs !! q.

(** The line [__init__] logs for a buffer that is not contiguous. *)
Definition noncontiguous_warning : Call :=
  CallLoggerWarn "Source isn't contiguous which can cause subtle OpenCV problems.".

(** The options [save] hands to the object encoder, given the options it
    has after the metadata step: the default [optimize] unless present. *)
Definition with_default_optimize (kwargs : gmap string kwval) : gmap string kwval :=
  match kwargs !! "optimize" with
  | None => <["optimize" := KwBool true]> kwargs
  | Some _ => kwargs
  end.

(** Contract of the resamplers: the result has the size asked for. *)
Definition resamplers_keep_size : Prop :=
  (forall a width height out,
      cv2_resize a (width, height) = Ok out ->
      Z.of_nat (np.w out) = width /\ Z.of_nat (np.h out) = height)
  /\ (forall p width height out,
         pil_resize p (width, height) = Ok out ->
         Z.of_nat (PILImageModule.width out) = width
         /\ Z.of_nat (PILImageModule.height out) = height).

(** Contract of the buffer codec for the container format of [path]: a
    three-channel picture that [cv2.imwrite] writes, [cv2.imread] reads back
    element for element. *)
Definition cv2_codec_lossless (path : string) : Prop :=
  forall a f,
    np.c a = 3 ->
    cv2_encode path a = Ok (Some f) ->
    exists a',
      cv2_decode f = Some a'
      /\ np.elements a' = np.elements a
      /\ np.shape a' = np.shape a.

End Further.

(** More of the reference implementation: nearest-neighbour resamplers, a
    JSON codec that rejects what is not the text of a mapping, and a disk
    with a photo that carries metadata. *)
Module MockFurther.

Definition nearest (a : np.ndarray) (size : Z * Z) : Result np.ndarray :=
  let '(width, height) := size in
  if ((0 <? width)%Z && (0 <? height)%Z)%bool then
    let ww := Z.to_nat width in
    let hh := Z.to_nat height in
    Ok (np.of_flat hh ww (np.c a)
          (np.flatten
             (map (fun i => map (fun j => np.pixel a (i * np.h a / hh) (j * np.w a / ww))
                                (seq 0 ww))
                  (seq 0 hh))))
  else Err Cv2Error.

Definition nearest_pil (p : PILImageModule.Image) (size : Z * Z)
  : Result PILImageModule.Image :=
  match nearest (np_array p) size with
  | Ok out =>
      Ok (PILImageModule.mk_Image (np.w out) (np.h out) (np.c out) (np.buf out)
            (PILImageModule.info p))
  | Err _ => Err (ValueError "height and width must be > 0")
  end.

#[export] Instance resamplers : Resamplers := {|
  cv2_resize := nearest;
  pil_resize := nearest_pil
|}.

Definition strict_dumps (o : string) : Result string :=
  if String.prefix "{" o then Ok o else Err TypeError.

Definition strict : Collaborators := {|
  PyObject := string;
  File := PILImageModule.Image;
  json_dumps := strict_dumps;
  json_loads := Mock.loads;
  piexif_dump := Mock.exif_dump;
  piexif_load := Mock.exif_load;
  pil_encode := Mock.encode_pil;
  pil_decode := Mock.decode_pil;
  cv2_encode := Mock.encode_cv2;
  cv2_decode := Mock.decode_cv2
|}.

(** The reference picture with metadata no JSON text stands for. *)
Definition unserializable : @Img strict :=
  @mk_Img strict (SArr Mock.arr2x2) RGB (Some "set()") true (mk_ImgSize 2 2) 2 2.

(** A stored photo whose EXIF block holds the text of the empty mapping,
    a disk holding it, and the image it loads as. *)
Definition photo_with_comment : PILImageModule.Image :=
  PILImageModule.mk_Image 2 2 3 Mock.buf2x2
    {[ "exif" := x01 :: encode_utf8 Mock.empty_mapping ]}.
Definition disk : gmap string PILImageModule.Image :=
  {[ "photo.jpg" := photo_with_comment ]}.
Definition loaded : @Img Mock.collaborators :=
  @mk_Img Mock.collaborators (SPil photo_with_comment) PIL (Some Mock.empty_mapping) true
    (mk_ImgSize 2 2) 2 2.

(** The reference picture held as RGB, without metadata. *)
Definition rgb2x2 : @Img Mock.collaborators :=
  @mk_Img Mock.collaborators (SArr Mock.arr2x2) RGB None true (mk_ImgSize 2 2) 2 2.

End MockFurther.

(** * Properties *)

(** ** The model on the reference picture *)

Example column0_not_contiguous : np.c_contiguous Mock.column0 = false.
Proof. reflexivity. Qed.

Example column0_elements :
  np.elements Mock.column0 = [[[10; 20; 30]]; [[12; 22; 32]]]%Z.
Proof. reflexivity. Qed.

Example column0_ascontiguousarray :
  np.ascontiguousarray Mock.column0 = np.of_flat 2 1 3 [10; 20; 30; 12; 22; 32]%Z.
Proof. reflexivity. Qed.

Example slice_bound_negative : np.slice_bound (-1) 5 = 4.
Proof. reflexivity. Qed.

Example cvtColor_arr2x2 :
  cv2.cvtColor Mock.arr2x2 cv2.COLOR_BGR2RGB
  = Ok (np.of_flat 2 2 3 [30; 20; 10;  31; 21; 11;
                          32; 22; 12;  33; 23; 13]%Z).
Proof. reflexivity. Qed.

Example cvtColor_rejects_empty :
  cv2.cvtColor (np.of_flat 0 0 3 []) cv2.COLOR_BGR2RGB = Err Cv2Error.
Proof. reflexivity. Qed.

Example crop_pil_top_right :
  PILImageModule.crop Mock.pil2x2 (1, 0, 2, 1)%Z
  = Ok (PILImageModule.mk_Image 1 1 3 [11; 21; 31]%Z ∅).
Proof. reflexivity. Qed.

Example save_then_open_metadata :
  match result_of
          (open (PyStr "out.jpg") BGR true
             (files_of (save Mock.bgr2x2 (PyStr "out.jpg") true ∅ ∅)))
  with
  | Ok img => metadata img
  | Err _ => None
  end = Some Mock.empty_mapping.
Proof. reflexivity. Qed.

(** ** Arrays: flattening and reading back *)

Section NumpyFacts.

Lemma nth_concat_uniform {A} (L : list (list A)) (n i j : nat) (d : A) :
  Forall (fun l => length l = n) L -> j < n ->
  nth (i * n + j) (concat L) d = nth j (nth i L []) d.
Proof.
  intros HL Hj. revert i. induction HL as [|l L Hl HL IH]; intros i.
  - simpl. destruct (i * n + j), i, j; reflexivity.
  - destruct i as [|i]; simpl.
    + rewrite app_nth1 by lia. reflexivity.
    + rewrite app_nth2 by lia.
      replace (n + i * n + j - length l) with (i * n + j) by lia.
      apply IH.
Qed.

Lemma map_nth_seq_id {A} (l : list A) (d : A) :
  map (fun i => nth i l d) (seq 0 (length l)) = l.
Proof.
  apply nth_ext with (d := d) (d' := d).
  - rewrite length_map, length_seq. reflexivity.
  - intros n Hn. rewrite length_map, length_seq in Hn.
    rewrite (nth_indep _ d (nth 0 l d)) by (rewrite length_map, length_seq; lia).
    rewrite (map_nth (fun i => nth i l d)), seq_nth by lia. reflexivity.
Qed.

Lemma length_concat_uniform {A} (L : list (list A)) (n : nat) :
  Forall (fun l => length l = n) L -> length (concat L) = length L * n.
Proof.
  induction 1 as [|l L Hl HL IH]; simpl; [reflexivity|].
  rewrite length_app, IH, Hl. reflexivity.
Qed.

Lemma map_nth_seq_len {A} (l : list A) (d : A) (n : nat) :
  length l = n -> map (fun i => nth i l d) (seq 0 n) = l.
Proof. intros <-. apply map_nth_seq_id. Qed.

Lemma shaped_row hh ww cc E i :
  np.shaped hh ww cc E -> i < hh ->
  length (nth i E []) = ww /\ Forall (fun px => length px = cc) (nth i E []).
Proof.
  intros [Hlen HE] Hi. rewrite Forall_forall in HE.
  apply HE. apply list_elem_of_In, nth_In. lia.
Qed.

Lemma shaped_px hh ww cc E i j :
  np.shaped hh ww cc E -> i < hh -> j < ww ->
  length (nth j (nth i E []) []) = cc.
Proof.
  intros HE Hi Hj. destruct (shaped_row _ _ _ _ i HE Hi) as [Hlen Hrow].
  rewrite Forall_forall in Hrow. apply Hrow.
  apply list_elem_of_In, nth_In. lia.
Qed.

Lemma get_of_flat hh ww cc E i j k :
  np.shaped hh ww cc E -> i < hh -> j < ww -> k < cc ->
  np.get (np.of_flat hh ww cc (np.flatten E)) i j k
  = nth k (nth j (nth i E []) []) 0%Z.
Proof.
  intros HE Hi Hj Hk. unfold np.get, np.of_flat, np.flatten. simpl.
  replace (i * (ww * cc) + j * cc + k * 1) with (i * (ww * cc) + (j * cc + k)) by lia.
  rewrite nth_concat_uniform with (n := ww * cc).
  - change (@nil Z) with (concat (@nil (list Z))) at 1.
    rewrite (map_nth (@concat Z)).
    destruct (shaped_row _ _ _ _ i HE Hi) as [Hlen Hrow].
    rewrite nth_concat_uniform with (n := cc); auto.
  - apply Forall_forall. intros l Hl.
    apply list_elem_of_In, in_map_iff in Hl. destruct Hl as (row & <- & Hin).
    destruct HE as [_ HE]. rewrite Forall_forall in HE.
    destruct (HE row) as [Hlen Hrow]; [by apply list_elem_of_In|].
    rewrite (length_concat_uniform _ cc) by exact Hrow. lia.
  - nia.
Qed.

Lemma elements_of_flat hh ww cc E :
  np.shaped hh ww cc E ->
  np.elements (np.of_flat hh ww cc (np.flatten E)) = E.
Proof.
  intros HE. unfold np.elements, np.pixel.
  change (np.h (np.of_flat hh ww cc (np.flatten E))) with hh.
  change (np.w (np.of_flat hh ww cc (np.flatten E))) with ww.
  change (np.c (np.of_flat hh ww cc (np.flatten E))) with cc.
  transitivity (map (fun i => nth i E []) (seq 0 hh));
    [|apply map_nth_seq_len, HE].
  apply map_ext_in. intros i Hi. apply in_seq in Hi.
  destruct (shaped_row _ _ _ _ i HE) as [Hlen Hrow]; [lia|].
  transitivity (map (fun j => nth j (nth i E []) []) (seq 0 ww));
    [|apply map_nth_seq_len, Hlen].
  apply map_ext_in. intros j Hj. apply in_seq in Hj.
  transitivity (map (fun k => nth k (nth j (nth i E []) []) 0%Z) (seq 0 cc));
    [|apply map_nth_seq_len, (shaped_px hh ww cc); auto; lia].
  apply map_ext_in. intros k Hk. apply in_seq in Hk.
  apply get_of_flat; auto; lia.
Qed.

Lemma elements_shaped a : np.shaped (np.h a) (np.w a) (np.c a) (np.elements a).
Proof.
  unfold np.shaped, np.elements, np.pixel. split.
  - by rewrite length_map, length_seq.
  - apply Forall_forall. intros row Hrow.
    apply list_elem_of_In, in_map_iff in Hrow. destruct Hrow as (i & <- & _). split.
    + by rewrite length_map, length_seq.
    + apply Forall_forall. intros px Hpx.
      apply list_elem_of_In, in_map_iff in Hpx. destruct Hpx as (j & <- & _).
      by rewrite length_map, length_seq.
Qed.

Lemma elements_copy a : np.elements (np.copy a) = np.elements a.
Proof. apply elements_of_flat, elements_shaped. Qed.

Lemma shape_copy a : np.shape (np.copy a) = np.shape a.
Proof. reflexivity. Qed.

Lemma elements_ascontiguousarray a :
  np.elements (np.ascontiguousarray a) = np.elements a.
Proof.
  unfold np.ascontiguousarray. destruct (np.c_contiguous a); [reflexivity|].
  apply elements_copy.
Qed.

Lemma shape_ascontiguousarray a :
  np.shape (np.ascontiguousarray a) = np.shape a.
Proof. unfold np.ascontiguousarray. by destruct (np.c_contiguous a). Qed.

Lemma c_contiguous_of_flat hh ww cc d :
  np.c_contiguous (np.of_flat hh ww cc d) = true.
Proof.
  unfold np.c_contiguous, np.of_flat. simpl.
  destruct (hh * ww * cc =? 0); [reflexivity|].
  rewrite !Nat.eqb_refl, !orb_true_r. reflexivity.
Qed.

Lemma c_contiguous_ascontiguousarray a :
  np.c_contiguous (np.ascontiguousarray a) = true.
Proof.
  unfold np.ascontiguousarray. destruct (np.c_contiguous a) eqn:E; [exact E|].
  apply c_contiguous_of_flat.
Qed.

End NumpyFacts.

(** ** Running the monad; the colour conversion *)

Section MonadFacts.
Context {collab : Collaborators}.

Lemma bind_ok {A B} (m : M A) (k : A -> M B) fs a fs1 ev1 r fs2 ev2 :
  m fs = (Ok a, fs1, ev1) -> k a fs1 = (r, fs2, ev2) ->
  bind m k fs = (r, fs2, ev1 ++ ev2).
Proof. intros Hm Hk. unfold bind. rewrite Hm, Hk. reflexivity. Qed.

Lemma bind_err {A B} (m : M A) (k : A -> M B) fs e fs1 ev1 :
  m fs = (Err e, fs1, ev1) -> bind m k fs = (Err e, fs1, ev1).
Proof. intros Hm. unfold bind. rewrite Hm. reflexivity. Qed.

Lemma init_array a tag md mac fs :
  tag <> PIL ->
  exists ev,
    __init__ (SArr a) tag md mac fs
    = (Ok (mk_Img (SArr a) tag md mac (mk_ImgSize (np.w a) (np.h a))
             (np.h a) (np.w a)), fs, ev).
Proof.
  intros Htag. unfold __init__.
  destruct tag; [| |congruence];
    destruct (np.c_contiguous a), mac; simpl; eexists; reflexivity.
Qed.

Lemma init_pil p md mac fs :
  __init__ (SPil p) PIL md mac fs
  = (Ok (mk_Img (SPil p) PIL md mac
           (mk_ImgSize (PILImageModule.width p) (PILImageModule.height p))
           (PILImageModule.height p) (PILImageModule.width p)), fs, []).
Proof. reflexivity. Qed.

Lemma call_cvtColor_ok a code fs :
  cv2.accepts a = true ->
  call_cvtColor a code fs = (Ok (cv2.swap_channels a), fs, [CallCvtColor code]).
Proof.
  intros Ha. unfold call_cvtColor, bind, emit, lift, cv2.cvtColor.
  rewrite Ha. reflexivity.
Qed.

Lemma call_cvtColor_err a code fs :
  cv2.accepts a = false ->
  call_cvtColor a code fs = (Err Cv2Error, fs, [CallCvtColor code]).
Proof.
  intros Ha. unfold call_cvtColor, bind, emit, lift, cv2.cvtColor.
  rewrite Ha. reflexivity.
Qed.

End MonadFacts.

Section Cv2Facts.

Lemma shaped_swapped hh ww cc E :
  np.shaped hh ww cc E -> np.shaped hh ww 3 (map (map cv2.swap_rb) E).
Proof.
  intros [Hlen HE]. split; [by rewrite length_map|].
  apply Forall_forall. intros row Hrow.
  apply list_elem_of_In, in_map_iff in Hrow. destruct Hrow as (row' & <- & Hin).
  rewrite Forall_forall in HE. destruct (HE row') as [Hw _]; [by apply list_elem_of_In|].
  split; [by rewrite length_map|].
  apply Forall_forall. intros px Hpx.
  apply list_elem_of_In, in_map_iff in Hpx. by destruct Hpx as (px' & <- & _).
Qed.

Lemma elements_swap_channels a :
  np.elements (cv2.swap_channels a) = map (map cv2.swap_rb) (np.elements a).
Proof.
  unfold cv2.swap_channels.
  apply elements_of_flat, (shaped_swapped _ _ (np.c a)), elements_shaped.
Qed.

Lemma swap_channels_thrice a :
  cv2.swap_channels (cv2.swap_channels (cv2.swap_channels a)) = cv2.swap_channels a.
Proof.
  unfold cv2.swap_channels at 1. rewrite !elements_swap_channels.
  unfold cv2.swap_channels. simpl. do 2 f_equal.
  rewrite !map_map. apply map_ext. intros row.
  rewrite !map_map. apply map_ext. intros px. reflexivity.
Qed.

Lemma accepts_swap_channels a :
  cv2.accepts a = true -> cv2.accepts (cv2.swap_channels a) = true.
Proof.
  unfold cv2.accepts, cv2.swap_channels. simpl.
  intros H. apply andb_true_iff in H as [H _]. rewrite H. reflexivity.
Qed.

Lemma ascontiguousarray_swap_channels a :
  np.ascontiguousarray (cv2.swap_channels a) = cv2.swap_channels a.
Proof.
  unfold np.ascontiguousarray, cv2.swap_channels.
  by rewrite c_contiguous_of_flat.
Qed.

Lemma nth_map_seq {A} (f : nat -> A) (n i : nat) (d : A) :
  i < n -> nth i (map f (seq 0 n)) d = f i.
Proof.
  intros Hi. rewrite (nth_indep _ d (f 0)) by (rewrite length_map, length_seq; lia).
  rewrite (map_nth f), seq_nth by lia. reflexivity.
Qed.

Lemma nth_elements a i j :
  i < np.h a -> j < np.w a -> nth j (nth i (np.elements a) []) [] = np.pixel a i j.
Proof.
  intros Hi Hj. unfold np.elements. rewrite nth_map_seq by lia.
  by rewrite nth_map_seq by lia.
Qed.

Lemma nth_map_lt {A B} (f : A -> B) (l : list A) (i : nat) (d : B) (d' : A) :
  i < length l -> nth i (map f l) d = f (nth i l d').
Proof.
  intros Hi. rewrite (nth_indep _ d (f d')) by (rewrite length_map; lia).
  apply map_nth.
Qed.

Lemma get_swap_channels a i j k :
  i < np.h a -> j < np.w a -> k < 3 ->
  np.get (cv2.swap_channels a) i j k
  = nth k (cv2.swap_rb (np.pixel a i j)) 0%Z.
Proof.
  intros Hi Hj Hk. unfold cv2.swap_channels.
  rewrite get_of_flat; auto.
  2:{ apply (shaped_swapped _ _ (np.c a)), elements_shaped. }
  destruct (elements_shaped a) as [Hlen _].
  destruct (shaped_row _ _ _ _ i (elements_shaped a) Hi) as [Hw _].
  rewrite (nth_map_lt _ _ _ _ []) by lia.
  rewrite (nth_map_lt _ _ _ _ []) by lia.
  by rewrite nth_elements.
Qed.

Lemma pixel_nth a i j k :
  k < np.c a -> nth k (np.pixel a i j) 0%Z = np.get a i j k.
Proof. intros Hk. unfold np.pixel. by rewrite nth_map_seq. Qed.

End Cv2Facts.

(** ** Channel-order conversion round trip *)

Section Conversions.
Context {collab : Collaborators}.

Lemma rgb_of_bgr_run a md mac sz hh ww fs :
  cv2.accepts a = true ->
  rgb (mk_Img (SArr a) BGR md mac sz hh ww) fs
  = (Ok (cv2.swap_channels a), fs, [CallCvtColor cv2.COLOR_BGR2RGB]).
Proof.
  intros Ha. unfold rgb. simpl.
  erewrite bind_ok; [| by apply call_cvtColor_ok |].
  2:{ destruct mac; unfold ret; rewrite ?ascontiguousarray_swap_channels; reflexivity. }
  reflexivity.
Qed.

Lemma bgr_of_rgb_run a md mac sz hh ww fs :
  cv2.accepts a = true ->
  bgr (mk_Img (SArr a) RGB md mac sz hh ww) fs
  = (Ok (cv2.swap_channels a), fs, [CallCvtColor cv2.COLOR_RGB2BGR]).
Proof.
  intros Ha. unfold bgr. simpl.
  erewrite bind_ok; [| by apply call_cvtColor_ok |].
  2:{ destruct mac; unfold ret; rewrite ?ascontiguousarray_swap_channels; reflexivity. }
  reflexivity.
Qed.

Lemma asRGB_of_bgr_run b mac fs :
  cv2.accepts b = true ->
  exists ev, asRGB_of_bgr b mac fs = (Ok (cv2.swap_channels b), fs, ev).
Proof.
  intros Hb. unfold asRGB_of_bgr, from_bgr.
  destruct (init_array b BGR None mac fs) as [ev Hev]; [done|].
  eexists. eapply bind_ok; [exact Hev|]. by apply rgb_of_bgr_run.
Qed.

Lemma asBGR_of_rgb_run r mac fs :
  cv2.accepts r = true ->
  exists ev, asBGR_of_rgb r mac fs = (Ok (cv2.swap_channels r), fs, ev).
Proof.
  intros Hr. unfold asBGR_of_rgb, from_rgb.
  destruct (init_array r RGB None mac fs) as [ev Hev]; [done|].
  eexists. eapply bind_ok; [exact Hev|]. by apply bgr_of_rgb_run.
Qed.

Lemma channels_swapped_swap_channels a :
  np.c a = 3 -> channels_swapped (cv2.swap_channels a) a.
Proof.
  intros Hc. split.
  - unfold np.shape, cv2.swap_channels. simpl. by rewrite Hc.
  - intros i j Hi Hj.
    rewrite !get_swap_channels by lia. unfold cv2.swap_rb. simpl.
    rewrite !pixel_nth by lia. done.
Qed.

(** C4. For every non-empty three-channel buffer [b] held as BGR and either
    layout policy, the three conversions succeed without touching the files;
    [asRGB(asBGR(asRGB(b)))] has the elements and the shape of [asRGB(b)];
    and each conversion exchanges channels 0 and 2 at every pixel and keeps
    channel 1. *)
Theorem C4_rgb_bgr_rgb_roundtrip (b : np.ndarray) (mac : bool) (fs : gmap string File) :
  0 < np.h b -> 0 < np.w b -> np.c b = 3 ->
  exists r1 b2 r3 ev,
    rgb_bgr_rgb b mac fs = (Ok (r1, b2, r3), fs, ev)
    /\ np.elements r3 = np.elements r1
    /\ np.shape r3 = np.shape r1
    /\ channels_swapped r1 b
    /\ channels_swapped b2 r1.
Proof.
  intros Hh Hw Hc.
  assert (Hb : cv2.accepts b = true).
  { unfold cv2.accepts. rewrite Hc.
    destruct (Nat.ltb_spec 0 (np.h b)), (Nat.ltb_spec 0 (np.w b)); (reflexivity || lia). }
  pose proof (accepts_swap_channels _ Hb) as Hr1.
  pose proof (accepts_swap_channels _ Hr1) as Hb2.
  destruct (asRGB_of_bgr_run b mac fs Hb) as [ev1 E1].
  destruct (asBGR_of_rgb_run _ mac fs Hr1) as [ev2 E2].
  destruct (asRGB_of_bgr_run _ mac fs Hb2) as [ev3 E3].
  exists (cv2.swap_channels b), (cv2.swap_channels (cv2.swap_channels b)),
    (cv2.swap_channels (cv2.swap_channels (cv2.swap_channels b))).
  eexists. split.
  - unfold rgb_bgr_rgb.
    eapply bind_ok; [exact E1|]. eapply bind_ok; [exact E2|].
    eapply bind_ok; [exact E3|]. reflexivity.
  - rewrite swap_channels_thrice.
    split; [reflexivity|]. split; [reflexivity|].
    split; by apply channels_swapped_swap_channels.
Qed.
End Conversions.

(** The round trip on the 2-by-2 reference picture. *)
Lemma C4_rgb_bgr_rgb_roundtrip_witness :
  exists r1 b2 r3 ev,
    rgb_bgr_rgb (collab := Mock.collaborators) Mock.arr2x2 true ∅
    = (Ok (r1, b2, r3), ∅, ev)
    /\ np.elements r3 = np.elements r1
    /\ np.shape r3 = np.shape r1
    /\ channels_swapped r1 Mock.arr2x2
    /\ channels_swapped b2 r1.
Proof.
  apply (C4_rgb_bgr_rgb_roundtrip (collab := Mock.collaborators) Mock.arr2x2 true ∅);
    simpl; lia.
Defined.

(** ** Identity conversions *)

Section Identity.
Context {collab : Collaborators}.

(** C5. When the tag already names the requested form, the converter
    returns the stored picture: for [RGB] and [rgb], and for [BGR] and
    [bgr], an array with the elements and the shape of the source, under
    either layout policy; for [PIL] and [pil], the source object itself.
    No conversion is made and no file is touched; the receiver, a value,
    is not changed. *)
Theorem C5_identity_conversion (img : Img) (fs : gmap string File) :
  consistent img ->
  match itype img, source img with
  | RGB, SArr a =>
      exists a', rgb img fs = (Ok a', fs, [])
                 /\ np.elements a' = np.elements a /\ np.shape a' = np.shape a
  | BGR, SArr a =>
      exists a', bgr img fs = (Ok a', fs, [])
                 /\ np.elements a' = np.elements a /\ np.shape a' = np.shape a
  | PIL, SPil p => pil img fs = (Ok p, fs, [])
  | _, _ => False
  end.
Proof.
  unfold consistent. destruct img as [src tag md mac sz hh ww]. simpl.
  destruct tag, src as [a|p]; try done; intros _.
  - unfold bgr. simpl. destruct mac.
    + exists (np.ascontiguousarray a). split; [reflexivity|].
      split; [apply elements_ascontiguousarray | apply shape_ascontiguousarray].
    + by exists a.
  - unfold rgb. simpl. destruct mac.
    + exists (np.ascontiguousarray a). split; [reflexivity|].
      split; [apply elements_ascontiguousarray | apply shape_ascontiguousarray].
    + by exists a.
Qed.

End Identity.

(** The left column of the reference picture, held as RGB with layout
    normalisation on: [rgb] returns a contiguous copy with the same
    elements. *)
Lemma C5_identity_conversion_witness :
  exists a', rgb Mock.rgb_column0 ∅ = (Ok a', ∅, [])
             /\ np.elements a' = np.elements Mock.column0
             /\ np.shape a' = np.shape Mock.column0.
Proof.
  apply (C5_identity_conversion Mock.rgb_column0 ∅). exact I.
Defined.

(** ** Construction and layout *)

Section Construction.
Context {collab : Collaborators}.

(** C2. Construction from a buffer that is not contiguous, with layout
    normalisation requested, completes and stores the supplied buffer as it
    is: the stored source is still not contiguous. *)
Theorem C2_init_stores_noncontiguous_source
    (a : np.ndarray) (tag : ImgType) (md : option PyObject) (fs : gmap string File) :
  tag <> PIL ->
  np.c_contiguous a = false ->
  exists img ev stored,
    __init__ (SArr a) tag md true fs = (Ok img, fs, ev)
    /\ make_arrays_contiguous img = true
    /\ source img = SArr stored
    /\ stored = a
    /\ np.c_contiguous stored = false.
Proof.
  intros Htag Ha.
  destruct (init_array a tag md true fs Htag) as [ev Hev].
  eexists _, ev, a. split; [exact Hev|]. by simpl.
Qed.

End Construction.

Lemma C2_init_stores_noncontiguous_source_witness :
  exists img ev stored,
    __init__ (collab := Mock.collaborators) (SArr Mock.column0) BGR None true ∅
    = (Ok img, ∅, ev)
    /\ make_arrays_contiguous img = true
    /\ source img = SArr stored
    /\ stored = Mock.column0
    /\ np.c_contiguous stored = false.
Proof.
  apply (C2_init_stores_noncontiguous_source (collab := Mock.collaborators)
           Mock.column0 BGR None ∅); [discriminate | reflexivity].
Defined.

(** ** Cropping *)

Section Crop.
Context {collab : Collaborators}.

Lemma slice_bound_inside (b : Z) (len : nat) :
  (0 <= b <= Z.of_nat len)%Z -> np.slice_bound b len = Z.to_nat b.
Proof.
  intros Hb. unfold np.slice_bound.
  destruct (Z.ltb_spec b 0); [lia|]. f_equal. lia.
Qed.

Lemma slice_array_shape r a :
  within_bounds r (np.w a) (np.h a) ->
  Z.of_nat (np.w (slice_array r a)) = (x1 r - x0 r + 1)%Z
  /\ Z.of_nat (np.h (slice_array r a)) = (y1 r - y0 r + 1)%Z.
Proof.
  unfold within_bounds, slice_array, np.slice2. intros Hr. simpl.
  rewrite !slice_bound_inside by lia. lia.
Qed.

(** C8, as amended.  For a consistent image and a rectangle within its
    bounds, [crop] called with [copy=True] when the image is held as a PIL
    object (any [copy] for buffers) returns a new image of width
    [x1 - x0 + 1] and height [y1 - y0 + 1], both corners included, with the
    tag and the metadata of the receiver; no file is touched. *)
Theorem C8_crop_dimensions
    (img : Img) (r : Rectangle) (copy : bool) (sz : ImgSize) (fs : gmap string File) :
  _get_size (itype img) (source img) = Ok sz ->
  within_bounds r (size_w sz) (size_h sz) ->
  (itype img = PIL -> copy = true) ->
  exists img' ev,
    crop img r copy fs = (Ok img', fs, ev)
    /\ Z.of_nat (img_w img') = (x1 r - x0 r + 1)%Z
    /\ Z.of_nat (img_h img') = (y1 r - y0 r + 1)%Z
    /\ size img' = mk_ImgSize (img_w img') (img_h img')
    /\ itype img' = itype img
    /\ metadata img' = metadata img.
Proof.
  destruct img as [src tag md mac sz0 hh ww]. simpl.
  intros Hsz Hr Hcopy. unfold crop. simpl.
  destruct tag, src as [a|p]; simpl in Hsz; try discriminate;
    injection Hsz as <-; simpl in Hr.
  - (* BGR *)
    destruct (slice_array_shape r a Hr) as [Hw Hh].
    destruct copy.
    + destruct (init_array (np.copy (slice_array r a)) BGR md true fs) as [ev Hev];
        [done|].
      eexists _, ev. split; [exact Hev|]. simpl. auto.
    + destruct (init_array (slice_array r a) BGR md true fs) as [ev Hev]; [done|].
      eexists _, ev. split; [exact Hev|]. simpl. auto.
  - (* RGB *)
    destruct (slice_array_shape r a Hr) as [Hw Hh].
    destruct copy.
    + destruct (init_array (np.copy (slice_array r a)) RGB md true fs) as [ev Hev];
        [done|].
      eexists _, ev. split; [exact Hev|]. simpl. auto.
    + destruct (init_array (slice_array r a) RGB md true fs) as [ev Hev]; [done|].
      eexists _, ev. split; [exact Hev|]. simpl. auto.
  - (* PIL *)
    rewrite (Hcopy eq_refl). simpl.
    unfold within_bounds in Hr. unfold PILImageModule.crop.
    destruct (Z.ltb_spec (x1 r + 1) (x0 r)); [lia|].
    destruct (Z.ltb_spec (y1 r + 1) (y0 r)); [lia|]. simpl.
    eexists _, []. split.
    + unfold bind, lift. rewrite init_pil. reflexivity.
    + simpl. repeat split; lia.
Qed.

(** C9. On an image held as a PIL object, [crop] with [copy=False] raises
    and returns no image, before anything else is done; with [copy=True]
    and a rectangle whose corners are in order, it returns an image. *)
Theorem C9_crop_pil_copy
    (img : Img) (p : PILImageModule.Image) (r : Rectangle) (fs : gmap string File) :
  itype img = PIL ->
  source img = SPil p ->
  (x0 r <= x1 r)%Z -> (y0 r <= y1 r)%Z ->
  crop img r false fs = (Err UnsupportedOption, fs, [])
  /\ exists img', crop img r true fs = (Ok img', fs, [])
                  /\ itype img' = PIL.
Proof.
  destruct img as [src tag md mac sz0 hh ww]. simpl.
  intros -> -> Hx Hy. unfold crop. simpl. split; [reflexivity|].
  unfold PILImageModule.crop.
  destruct (Z.ltb_spec (x1 r + 1) (x0 r)); [lia|].
  destruct (Z.ltb_spec (y1 r + 1) (y0 r)); [lia|]. simpl.
  eexists. split.
  - unfold bind, lift. rewrite init_pil. reflexivity.
  - reflexivity.
Qed.

End Crop.

(** The top-right pixel of the reference picture, cropped as a view. *)
Lemma C8_crop_dimensions_witness :
  exists img' ev,
    crop Mock.bgr2x2 (mk_Rectangle 1 0 1 0) false ∅ = (Ok img', ∅, ev)
    /\ Z.of_nat (img_w img') = (1 - 1 + 1)%Z
    /\ Z.of_nat (img_h img') = (0 - 0 + 1)%Z
    /\ size img' = mk_ImgSize (img_w img') (img_h img')
    /\ itype img' = BGR
    /\ metadata img' = Some Mock.empty_mapping.
Proof.
  apply (C8_crop_dimensions Mock.bgr2x2 (mk_Rectangle 1 0 1 0) false
           (mk_ImgSize 2 2) ∅).
  - reflexivity.
  - unfold within_bounds. simpl. lia.
  - discriminate.
Defined.

(** C8 as stated, with [crop(rect)] read as the call with the default
    [copy=False]: on an image held as a PIL object and a rectangle within
    its bounds, the call returns no image at all. *)
Lemma C8_crop_default_copy_counterexample :
  within_bounds (mk_Rectangle 0 0 0 0) 2 2
  /\ ~ exists img' fs' ev,
        crop Mock.pil_img2x2 (mk_Rectangle 0 0 0 0) false ∅ = (Ok img', fs', ev).
Proof.
  split.
  - unfold within_bounds. simpl. lia.
  - intros (img' & fs' & ev & H). discriminate H.
Qed.

(** The top row of the reference picture, held as a PIL object. *)
Lemma C9_crop_pil_copy_witness :
  crop Mock.pil_img2x2 (mk_Rectangle 0 0 1 0) false ∅ = (Err UnsupportedOption, ∅, [])
  /\ exists img',
       crop Mock.pil_img2x2 (mk_Rectangle 0 0 1 0) true ∅ = (Ok img', ∅, [])
       /\ itype img' = PIL.
Proof.
  apply (C9_crop_pil_copy Mock.pil_img2x2 Mock.pil2x2 (mk_Rectangle 0 0 1 0) ∅);
    simpl; (reflexivity || lia).
Defined.

(** ** Saving *)

Section Save.
Context {collab : Collaborators}.

Lemma accepts_ascontiguousarray a :
  cv2.accepts (np.ascontiguousarray a) = cv2.accepts a.
Proof.
  pose proof (shape_ascontiguousarray a) as H. unfold np.shape in H.
  injection H as Hh Hw Hc. unfold cv2.accepts. by rewrite Hh, Hw, Hc.
Qed.

Lemma fromarray_colour a :
  cv2.accepts a = true -> exists im, PILImageModule.fromarray a = Ok im.
Proof.
  unfold cv2.accepts, PILImageModule.fromarray. intros H.
  apply andb_true_iff in H as [_ H].
  destruct (np.c a =? 2), (np.c a =? 3), (np.c a =? 4); simpl in *;
    try discriminate; eauto.
Qed.

(** [Img.pil] on a well-formed image. *)
Lemma pil_run img fs :
  well_formed img ->
  exists im, pil img fs = (Ok im, fs, pil_conversions (itype img)).
Proof.
  destruct img as [src tag md mac sz hh ww]. unfold well_formed, pil. simpl.
  destruct tag, src as [a|p]; try done; intros Hwf.
  - assert (Ha : cv2.accepts (np.ascontiguousarray a) = true)
      by by rewrite accepts_ascontiguousarray.
    destruct (fromarray_colour _ (accepts_swap_channels _ Ha)) as [im Him].
    exists im. unfold bind. rewrite (call_cvtColor_ok _ _ _ Ha).
    unfold lift. rewrite Him. reflexivity.
  - assert (Ha : cv2.accepts (np.ascontiguousarray a) = true)
      by by rewrite accepts_ascontiguousarray.
    destruct (fromarray_colour _ Ha) as [im Him].
    exists im. unfold lift. by rewrite Him.
  - by exists p.
Qed.

(** [Img.pil] never writes a file and never calls an encoder. *)
Lemma pil_no_encoder img fs :
  exists r ev, pil img fs = (r, fs, ev)
               /\ uses_object_encoder ev = false
               /\ uses_buffer_encoder ev = false.
Proof.
  destruct img as [src tag md mac sz hh ww]. unfold pil. simpl.
  destruct tag, src as [a|p]; try (by eexists _, []).
  - destruct (cv2.accepts (np.ascontiguousarray a)) eqn:Ha.
    + unfold bind. rewrite (call_cvtColor_ok _ _ _ Ha). unfold lift.
      by eexists _, _.
    + unfold bind. rewrite (call_cvtColor_err _ _ _ Ha). by eexists _, _.
Qed.

(** C7. A save that asks for the metadata to be embedded, on an image that
    has metadata, with an [exif] option among the caller's options, fails;
    the files are unchanged and neither encoder has been called.  On a
    well-formed image the error is [ConflictingOption]. *)
Theorem C7_conflicting_option_rejected
    (img : Img) (path : PathLike) (p : string) (md : PyObject) (v : kwval)
    (kwargs : gmap string kwval) (fs : gmap string File) :
  path_str path = Some p ->
  metadata img = Some md ->
  kwargs !! "exif" = Some v ->
  exists e ev,
    save img path true kwargs fs = (Err e, fs, ev)
    /\ uses_object_encoder ev = false
    /\ uses_buffer_encoder ev = false
    /\ (well_formed img -> e = ConflictingOption).
Proof.
  intros Hp Hmd Hexif. unfold save. rewrite Hp, Hmd. simpl.
  destruct (pil_no_encoder img fs) as (r & ev & Hpil & Ho & Hb).
  destruct (itype img); rewrite Hexif; unfold bind at 1; rewrite Hpil;
    (destruct r as [im|e];
     [ exists ConflictingOption, ev; unfold bind, raise; rewrite app_nil_r; auto
     | exists e, ev; repeat split; auto;
       intros Hwf; destruct (pil_run img fs Hwf) as [im Him]; congruence ]).
Qed.

(** [save] on a buffer image when no metadata is to be embedded: the
    buffer encoder, after one conversion for RGB. *)
Lemma save_buffer_run img a path p sm kwargs fs :
  itype img <> PIL -> source img = SArr a -> path_str path = Some p ->
  should_save_metadata img sm = false ->
  save img path sm kwargs fs
  = match itype img with
    | RGB =>
        bind (call_cvtColor a cv2.COLOR_RGB2BGR)
          (fun x => bind (call_imwrite p x) (fun _ => ret tt)) fs
    | _ => bind (call_imwrite p a) (fun _ => ret tt) fs
    end.
Proof.
  unfold should_save_metadata, save. intros Htag Hsrc -> ->. rewrite Hsrc.
  destruct (itype img); done.
Qed.

(** [cv2.imwrite] with its result dropped: the run completes whether or
    not the file was written. *)
Lemma call_imwrite_run p a fs :
  bind (call_imwrite p a) (fun _ => ret tt) fs
  = match cv2_encode p a with
    | Ok (Some f) => (Ok tt, <[p := f]> fs, [CallImwrite p a])
    | Ok None => (Ok tt, fs, [CallImwrite p a])
    | Err e => (Err e, fs, [CallImwrite p a])
    end.
Proof.
  unfold call_imwrite, bind, emit, ret. by destruct (cv2_encode p a) as [[f|]|e].
Qed.

(** The buffer route for RGB: one conversion, then the converted array is
    handed to the encoder. *)
Lemma convert_imwrite_run p a fs :
  cv2.accepts a = true ->
  bind (call_cvtColor a cv2.COLOR_RGB2BGR)
    (fun x => bind (call_imwrite p x) (fun _ => ret tt)) fs
  = match cv2_encode p (cv2.swap_channels a) with
    | Ok (Some f) =>
        (Ok tt, <[p := f]> fs,
         [CallCvtColor cv2.COLOR_RGB2BGR; CallImwrite p (cv2.swap_channels a)])
    | Ok None =>
        (Ok tt, fs,
         [CallCvtColor cv2.COLOR_RGB2BGR; CallImwrite p (cv2.swap_channels a)])
    | Err e =>
        (Err e, fs,
         [CallCvtColor cv2.COLOR_RGB2BGR; CallImwrite p (cv2.swap_channels a)])
    end.
Proof.
  intros Ha. unfold bind at 1. rewrite (call_cvtColor_ok _ _ _ Ha), call_imwrite_run.
  by destruct (cv2_encode p (cv2.swap_channels a)) as [[f|]|e].
Qed.

Lemma convert_imwrite_rejected p a fs :
  cv2.accepts a = false ->
  bind (call_cvtColor a cv2.COLOR_RGB2BGR)
    (fun x => bind (call_imwrite p x) (fun _ => ret tt)) fs
  = (Err Cv2Error, fs, [CallCvtColor cv2.COLOR_RGB2BGR]).
Proof.
  intros Ha. unfold bind at 1. by rewrite (call_cvtColor_err _ _ _ Ha).
Qed.

(** C10. When no metadata is to be embedded and the image is held as a
    buffer, [save] does not look at the caller's options: the run is the run
    with no options at all; the object encoder, the only one given options
    (among them the default [optimize]), is not called; and on a buffer the
    conversion accepts, the buffer encoder is called once, after one
    conversion for RGB and none for BGR, and its verdict is the result,
    whether or not an [exif] option was supplied. *)
Theorem C10_buffer_save_ignores_options
    (img : Img) (a : np.ndarray) (path : PathLike) (p : string) (sm : bool)
    (kwargs : gmap string kwval) (fs : gmap string File) :
  itype img <> PIL ->
  source img = SArr a ->
  path_str path = Some p ->
  should_save_metadata img sm = false ->
  save img path sm kwargs fs = save img path sm ∅ fs
  /\ uses_object_encoder (calls_of (save img path sm kwargs fs)) = false
  /\ (cv2.accepts a = true ->
      exists arr,
        calls_of (save img path sm kwargs fs)
        = match itype img with
          | RGB => [CallCvtColor cv2.COLOR_RGB2BGR]
          | _ => []
          end ++ [CallImwrite p arr]
        /\ result_of (save img path sm kwargs fs)
           = match cv2_encode p arr with
             | Ok _ => Ok tt
             | Err e => Err e
             end).
Proof.
  intros Htag Hsrc Hp Hs.
  rewrite !(save_buffer_run img a path p sm) by done.
  split; [reflexivity|].
  destruct (itype img) eqn:Etag; [| |done].
  - rewrite call_imwrite_run. split.
    + by destruct (cv2_encode p a) as [[f|]|e].
    + intros _. exists a. by destruct (cv2_encode p a) as [[f|]|e].
  - destruct (cv2.accepts a) eqn:Ha.
    + rewrite (convert_imwrite_run p a fs Ha). split.
      * by destruct (cv2_encode p (cv2.swap_channels a)) as [[f|]|e].
      * intros _. exists (cv2.swap_channels a).
        by destruct (cv2_encode p (cv2.swap_channels a)) as [[f|]|e].
    + rewrite (convert_imwrite_rejected p a fs Ha). split; [done|].
      discriminate.
Qed.

(** [save] on a well-formed image routed to the object encoder, when
    nothing stops it before the encoder. *)
Lemma save_object_run img path p sm kwargs fs :
  path_str path = Some p ->
  well_formed img ->
  routed_to_object_encoder img sm = true ->
  metadata_ready img sm kwargs ->
  exists im kw,
    pil img fs = (Ok im, fs, pil_conversions (itype img))
    /\ save img path sm kwargs fs
       = match pil_encode p im kw with
         | Ok f => (Ok tt, <[p := f]> fs,
                    pil_conversions (itype img) ++ [CallPilSave p im kw])
         | Err e => (Err e, fs,
                     pil_conversions (itype img) ++ [CallPilSave p im kw])
         end
    /\ (should_save_metadata img sm = true ->
        exists md s b,
          metadata img = Some md
          /\ json_dumps md = Ok s
          /\ piexif_dump
               {[ "Exif" := {[ piexif.ExifIFD.UserComment := encode_utf8 s ]} ]}
             = Ok b
          /\ kw !! "exif" = Some (KwBytes b))
    /\ (should_save_metadata img sm = false -> kw !! "exif" = kwargs !! "exif").
Proof.
  intros Hp Hwf Hrouted Hready.
  destruct (pil_run img fs Hwf) as [im Him].
  unfold routed_to_object_encoder in Hrouted. unfold metadata_ready in Hready.
  unfold save. rewrite Hp. fold (should_save_metadata img sm).
  destruct (should_save_metadata img sm) eqn:Es.
  - destruct Hready as (Hexif & md & s & b & Hmd & Hs & Hb); [done|].
    exists im,
      (match <["exif" := KwBytes b]> kwargs !! "optimize" with
       | Some _ => <["exif" := KwBytes b]> kwargs
       | None => <["optimize" := KwBool true]> (<["exif" := KwBytes b]> kwargs)
       end).
    split; [exact Him|]. split; [|split; [|done]].
    + rewrite Hmd, Hexif.
      assert (Hcall : forall kw, call_pil_save p im kw fs
                = match pil_encode p im kw with
                  | Ok f => (Ok tt, <[p := f]> fs, [CallPilSave p im kw])
                  | Err e => (Err e, fs, [CallPilSave p im kw])
                  end).
      { intros kw. unfold call_pil_save, bind, emit. by destruct (pil_encode p im kw). }
      destruct (itype img); unfold bind at 1; rewrite Him;
        unfold bind, lift, ret; rewrite Hs, Hb; simpl; rewrite Hcall;
        match goal with |- context [pil_encode p im ?k] =>
          destruct (pil_encode p im k) end; reflexivity.
    + intros _. exists md, s, b. repeat split; auto.
      destruct (<["exif" := KwBytes b]> kwargs !! "optimize").
      * apply lookup_insert_eq.
      * rewrite lookup_insert_ne by done. apply lookup_insert_eq.
  - simpl in Hrouted. destruct (itype img) eqn:Etag; try done.
    exists im,
      (match kwargs !! "optimize" with
       | Some _ => kwargs
       | None => <["optimize" := KwBool true]> kwargs
       end).
    split; [exact Him|]. split; [|split; [done|]].
    + unfold bind at 1. rewrite Him.
      destruct (metadata img);
        unfold bind, ret, call_pil_save, emit; simpl;
        match goal with |- context [pil_encode p im ?k] =>
          destruct (pil_encode p im k) end; reflexivity.
    + intros _. destruct (kwargs !! "optimize"); [done|].
      by rewrite lookup_insert_ne.
Qed.

(** On the object route [save] never calls the buffer encoder, whatever
    happens before the object encoder is reached. *)
Lemma save_object_route_no_imwrite img path p sm kwargs fs :
  path_str path = Some p ->
  routed_to_object_encoder img sm = true ->
  uses_buffer_encoder (calls_of (save img path sm kwargs fs)) = false.
Proof.
  intros Hp Hrouted. unfold routed_to_object_encoder in Hrouted.
  unfold save. rewrite Hp. fold (should_save_metadata img sm).
  destruct (pil_no_encoder img fs) as (r & ev & Hpil & _ & Hb).
  unfold calls_of, uses_buffer_encoder in *.
  destruct (itype img), (should_save_metadata img sm); try discriminate;
    unfold bind at 1; rewrite Hpil;
    (destruct r as [im|e]; [|exact Hb]);
    unfold bind, lift, ret, raise, call_pil_save, emit; cbn;
    repeat match goal with
           | |- context [metadata img] => destruct (metadata img); cbn
           | |- context [kwargs !! "exif"] => destruct (kwargs !! "exif"); cbn
           | |- context [json_dumps ?x] => destruct (json_dumps x); cbn
           | |- context [piexif_dump ?x] => destruct (piexif_dump x); cbn
           | |- context [pil_encode ?x ?y ?z] => destruct (pil_encode x y z); cbn
           end;
    rewrite existsb_app, Hb; reflexivity.
Qed.

(** C6. For a save of a well-formed image to a valid path: the buffer
    encoder is called if and only if neither the metadata is to be embedded
    (asked for, and present) nor the image is held as a PIL object; the
    object encoder is called only if one of the two holds, and is called
    whenever nothing stops the save before the encoder; either route makes
    exactly one encoder call.  On the buffer route the calls are exactly:
    for an image held as RGB, one conversion RGB to BGR followed by the
    encoder on the converted array; for an image held as BGR, the encoder
    on the stored array and no conversion.  On the object route they are
    the conversions of [pil] followed by the encoder on the object [pil]
    returned. *)
Theorem C6_save_routing
    (img : Img) (path : PathLike) (p : string) (sm : bool)
    (kwargs : gmap string kwval) (fs : gmap string File) :
  path_str path = Some p ->
  well_formed img ->
  let ev := calls_of (save img path sm kwargs fs) in
  uses_buffer_encoder ev = negb (routed_to_object_encoder img sm)
  /\ (uses_object_encoder ev = true -> routed_to_object_encoder img sm = true)
  /\ (metadata_ready img sm kwargs ->
      uses_object_encoder ev = routed_to_object_encoder img sm)
  /\ (metadata_ready img sm kwargs ->
      routed_to_object_encoder img sm = true ->
      count_calls is_CallPilSave ev = 1 /\ count_calls is_CallImwrite ev = 0)
  /\ (routed_to_object_encoder img sm = false ->
      count_calls is_CallImwrite ev = 1
      /\ count_calls is_CallPilSave ev = 0
      /\ count_calls is_CallCvtColor ev
         = match itype img with RGB => 1 | _ => 0 end
      /\ count_calls is_RGB2BGR ev
         = match itype img with RGB => 1 | _ => 0 end)
  /\ (routed_to_object_encoder img sm = false ->
      exists a,
        source img = SArr a
        /\ ev = match itype img with
                | RGB => [CallCvtColor cv2.COLOR_RGB2BGR;
                          CallImwrite p (cv2.swap_channels a)]
                | _ => [CallImwrite p a]
                end)
  /\ (metadata_ready img sm kwargs ->
      routed_to_object_encoder img sm = true ->
      exists im kw,
        pil img fs = (Ok im, fs, pil_conversions (itype img))
        /\ ev = pil_conversions (itype img) ++ [CallPilSave p im kw]).
Proof.
  intros Hp Hwf ev. subst ev.
  destruct (routed_to_object_encoder img sm) eqn:Hrouted.
  - split; [by apply (save_object_route_no_imwrite img path p)|].
    split; [done|].
    assert (Hobj : metadata_ready img sm kwargs ->
              exists im kw,
                pil img fs = (Ok im, fs, pil_conversions (itype img))
                /\ calls_of (save img path sm kwargs fs)
                   = pil_conversions (itype img) ++ [CallPilSave p im kw]).
    { intros Hready.
      destruct (save_object_run img path p sm kwargs fs Hp Hwf Hrouted Hready)
        as (im & kw & Him & Hsave & _).
      exists im, kw. split; [exact Him|].
      rewrite Hsave. by destruct (pil_encode p im kw). }
    assert (Hcount : metadata_ready img sm kwargs ->
              uses_object_encoder (calls_of (save img path sm kwargs fs)) = true
              /\ count_calls is_CallPilSave (calls_of (save img path sm kwargs fs)) = 1
              /\ count_calls is_CallImwrite (calls_of (save img path sm kwargs fs)) = 0).
    { intros Hready. destruct (Hobj Hready) as (im & kw & _ & ->).
      by destruct (itype img). }
    split; [intros Hready; apply (Hcount Hready)|].
    split; [intros Hready _; apply (Hcount Hready)|].
    split; [discriminate|]. split; [discriminate|].
    intros Hready _. exact (Hobj Hready).
  - unfold routed_to_object_encoder in Hrouted.
    apply orb_false_iff in Hrouted as [Hs Htag].
    assert (Hnp : itype img <> PIL) by (intros E; by rewrite E in Htag).
    unfold well_formed in Hwf.
    destruct (source img) as [a|q] eqn:Hsrc; [|by destruct (itype img)].
    rewrite (save_buffer_run img a path p sm kwargs fs Hnp Hsrc Hp Hs).
    destruct (itype img) eqn:Etag; [| |done].
    + rewrite call_imwrite_run.
      destruct (cv2_encode p a) as [[f|]|e]; simpl;
        (split; [reflexivity|]; split; [done|]; split; [done|];
         split; [by intros ? ?|]; split; [done|];
         split; [intros _; by exists a | by intros ? ?]).
    + rewrite (convert_imwrite_run p a fs Hwf).
      destruct (cv2_encode p (cv2.swap_channels a)) as [[f|]|e]; simpl;
        (split; [reflexivity|]; split; [done|]; split; [done|];
         split; [by intros ? ?|]; split; [done|];
         split; [intros _; by exists a | by intros ? ?]).
Qed.

End Save.

(** The non-contiguous column held as RGB, without metadata, saved with an
    option of the caller's: the buffer route, with its one conversion. *)
Lemma C6_save_routing_witness :
  let ev := calls_of (save Mock.rgb_column0 (PyStr "out.png") true
                        {[ "quality" := KwInt 90 ]} ∅) in
  uses_buffer_encoder ev = negb (routed_to_object_encoder Mock.rgb_column0 true)
  /\ (uses_object_encoder ev = true ->
      routed_to_object_encoder Mock.rgb_column0 true = true)
  /\ (metadata_ready Mock.rgb_column0 true {[ "quality" := KwInt 90 ]} ->
      uses_object_encoder ev = routed_to_object_encoder Mock.rgb_column0 true)
  /\ (metadata_ready Mock.rgb_column0 true {[ "quality" := KwInt 90 ]} ->
      routed_to_object_encoder Mock.rgb_column0 true = true ->
      count_calls is_CallPilSave ev = 1 /\ count_calls is_CallImwrite ev = 0)
  /\ (routed_to_object_encoder Mock.rgb_column0 true = false ->
      count_calls is_CallImwrite ev = 1
      /\ count_calls is_CallPilSave ev = 0
      /\ count_calls is_CallCvtColor ev
         = match itype Mock.rgb_column0 with RGB => 1 | _ => 0 end
      /\ count_calls is_RGB2BGR ev
         = match itype Mock.rgb_column0 with RGB => 1 | _ => 0 end)
  /\ (routed_to_object_encoder Mock.rgb_column0 true = false ->
      exists a,
        source Mock.rgb_column0 = SArr a
        /\ ev = match itype Mock.rgb_column0 with
                | RGB => [CallCvtColor cv2.COLOR_RGB2BGR;
                          CallImwrite "out.png" (cv2.swap_channels a)]
                | _ => [CallImwrite "out.png" a]
                end)
  /\ (metadata_ready Mock.rgb_column0 true {[ "quality" := KwInt 90 ]} ->
      routed_to_object_encoder Mock.rgb_column0 true = true ->
      exists im kw,
        pil Mock.rgb_column0 ∅ = (Ok im, ∅, pil_conversions (itype Mock.rgb_column0))
        /\ ev = pil_conversions (itype Mock.rgb_column0)
                ++ [CallPilSave "out.png" im kw]).
Proof.
  apply (C6_save_routing Mock.rgb_column0 (PyStr "out.png") "out.png" true
           {[ "quality" := KwInt 90 ]} ∅); reflexivity.
Defined.

(** The same save with an [exif] option supplied by the caller. *)
Lemma C7_conflicting_option_rejected_witness :
  exists e ev,
    save Mock.bgr2x2 (PyStr "out.jpg") true {[ "exif" := KwBytes [] ]} ∅
    = (Err e, ∅, ev)
    /\ uses_object_encoder ev = false
    /\ uses_buffer_encoder ev = false
    /\ (well_formed Mock.bgr2x2 -> e = ConflictingOption).
Proof.
  apply (C7_conflicting_option_rejected Mock.bgr2x2 (PyStr "out.jpg") "out.jpg"
           Mock.empty_mapping (KwBytes []) {[ "exif" := KwBytes [] ]} ∅);
    reflexivity.
Defined.

(** A buffer image without metadata, saved with an [exif] option. *)
Lemma C10_buffer_save_ignores_options_witness :
  save Mock.rgb_column0 (PyStr "out.png") true {[ "exif" := KwBytes [] ]} ∅
  = save Mock.rgb_column0 (PyStr "out.png") true ∅ ∅
  /\ uses_object_encoder
       (calls_of (save Mock.rgb_column0 (PyStr "out.png") true
                    {[ "exif" := KwBytes [] ]} ∅)) = false
  /\ (cv2.accepts Mock.column0 = true ->
      exists arr,
        calls_of (save Mock.rgb_column0 (PyStr "out.png") true
                    {[ "exif" := KwBytes [] ]} ∅)
        = match itype Mock.rgb_column0 with
          | RGB => [CallCvtColor cv2.COLOR_RGB2BGR]
          | _ => []
          end ++ [CallImwrite "out.png" arr]
        /\ result_of (save Mock.rgb_column0 (PyStr "out.png") true
                        {[ "exif" := KwBytes [] ]} ∅)
           = match Mock.encode_cv2 "out.png" arr with
             | Ok _ => Ok tt
             | Err e => Err e
             end).
Proof.
  apply (C10_buffer_save_ignores_options Mock.rgb_column0 Mock.column0
           (PyStr "out.png") "out.png" true {[ "exif" := KwBytes [] ]} ∅);
    (discriminate || reflexivity).
Defined.

(** ** Loading, and the metadata round trip *)

Section Load.
Context {collab : Collaborators}.

Lemma call_pil_open_run p fs :
  call_pil_open p fs
  = match fs !! p with
    | Some f => (pil_decode f, fs, [CallPilOpen p])
    | None => (Err FileNotFoundError, fs, [CallPilOpen p])
    end.
Proof. unfold call_pil_open, bind, emit. by destruct (fs !! p). Qed.

(** The metadata step of [open] when the file has an EXIF block. *)
Lemma read_metadata_exif im blob fs :
  PILImageModule.info im !! "exif" = Some blob ->
  read_metadata im fs
  = (match piexif_load blob with
     | Ok d =>
         match d !! "Exif" with
         | Some ifd =>
             match ifd !! piexif.ExifIFD.UserComment with
             | Some payload => json_loads payload
             | None => Err KeyError
             end
         | None => Err KeyError
         end
     | Err e => Err e
     end, fs, []).
Proof.
  intros Hinfo. unfold read_metadata. rewrite Hinfo.
  unfold bind, lift, ret, getitem.
  destruct (piexif_load blob) as [d|e]; [|done].
  destruct (d !! "Exif") as [ifd|]; [|done].
  destruct (ifd !! piexif.ExifIFD.UserComment) as [payload|]; [|done].
  by destruct (json_loads payload).
Qed.

Lemma read_metadata_no_exif im fs :
  PILImageModule.info im !! "exif" = None ->
  read_metadata im fs = (Ok None, fs, []).
Proof. intros Hinfo. unfold read_metadata. by rewrite Hinfo. Qed.

(** [open] with [load_metadata] set, once the file is decoded and the
    metadata step has returned. *)
Lemma open_with_metadata path p tag fs f im meta :
  path_str path = Some p ->
  fs !! p = Some f ->
  pil_decode f = Ok im ->
  read_metadata im fs = (Ok meta, fs, []) ->
  cv2.accepts (np_array im) = true ->
  exists img ev,
    open path tag true fs = (Ok img, fs, ev)
    /\ metadata img = meta
    /\ itype img = tag.
Proof.
  intros Hp Hf Him Hmeta Hacc. unfold open. rewrite Hp. simpl.
  unfold bind at 1. rewrite call_pil_open_run, Hf, Him.
  unfold bind at 1. rewrite Hmeta.
  destruct tag.
  - unfold bind at 1. rewrite (call_cvtColor_ok _ _ _ Hacc).
    destruct (init_array (cv2.swap_channels (np_array im)) BGR meta true fs)
      as [ev Hev]; [done|].
    rewrite Hev. by eexists _, _.
  - destruct (init_array (np_array im) RGB meta true fs) as [ev Hev]; [done|].
    rewrite Hev. by eexists _, _.
  - rewrite init_pil. by eexists _, _.
Qed.

(** C3. Loading with [load_metadata] set a file that decodes and carries an
    EXIF block in which the UserComment field is absent ends in [KeyError];
    no image is returned. *)
Theorem C3_open_exif_without_user_comment
    (path : PathLike) (p : string) (tag : ImgType) (fs : gmap string File)
    (f : File) (im : PILImageModule.Image) (blob : bytes)
    (d : gmap string (gmap Z bytes)) (ifd : gmap Z bytes) :
  path_str path = Some p ->
  fs !! p = Some f ->
  pil_decode f = Ok im ->
  PILImageModule.info im !! "exif" = Some blob ->
  piexif_load blob = Ok d ->
  d !! "Exif" = Some ifd ->
  ifd !! piexif.ExifIFD.UserComment = None ->
  open path tag true fs = (Err KeyError, fs, [CallPilOpen p]).
Proof.
  intros Hp Hf Him Hinfo Hload Hexif Huc. unfold open. rewrite Hp. simpl.
  unfold bind at 1. rewrite call_pil_open_run, Hf, Him.
  unfold bind at 1. rewrite (read_metadata_exif _ _ _ Hinfo), Hload, Hexif, Huc.
  reflexivity.
Qed.

(** The other half of the sentence: a file that decodes to a colour picture
    and carries no EXIF block loads with no metadata. *)
Lemma open_without_exif_block path p tag fs f im :
  path_str path = Some p ->
  fs !! p = Some f ->
  pil_decode f = Ok im ->
  PILImageModule.info im !! "exif" = None ->
  cv2.accepts (np_array im) = true ->
  exists img ev,
    open path tag true fs = (Ok img, fs, ev) /\ metadata img = None /\ itype img = tag.
Proof.
  intros Hp Hf Him Hinfo Hacc.
  apply (open_with_metadata path p tag fs f im None); auto.
  by apply read_metadata_no_exif.
Qed.

End Load.

(** A file whose EXIF block holds no field at all. *)
Lemma C3_open_exif_without_user_comment_witness :
  open (collab := Mock.collaborators) (PyStr "photo.jpg") RGB true Mock.disk
  = (Err KeyError, Mock.disk, [CallPilOpen "photo.jpg"]).
Proof.
  apply (C3_open_exif_without_user_comment (collab := Mock.collaborators)
           (PyStr "photo.jpg") "photo.jpg" RGB Mock.disk
           Mock.photo_without_comment Mock.photo_without_comment
           [x00] (<["0th" := ∅]> {[ "Exif" := ∅ ]}) ∅); reflexivity.
Defined.

Section RoundTrip.
Context {collab : Collaborators}.

(** What [__init__] stores when it returns. *)
Lemma init_fields src tag md mac fs img fs' ev :
  __init__ src tag md mac fs = (Ok img, fs', ev) ->
  source img = src /\ itype img = tag /\ metadata img = md.
Proof.
  intros H. destruct tag, src as [a|p].
  - destruct (init_array a BGR md mac fs) as [ev' Hev]; [done|].
    rewrite Hev in H. by injection H as <- _ _.
  - unfold __init__, bind, raise in H. simpl in H. discriminate.
  - destruct (init_array a RGB md mac fs) as [ev' Hev]; [done|].
    rewrite Hev in H. by injection H as <- _ _.
  - unfold __init__, bind, raise in H. simpl in H. discriminate.
  - unfold __init__, bind, raise in H. simpl in H. discriminate.
  - rewrite init_pil in H. by injection H as <- _ _.
Qed.

Lemma colour_picture_well_formed img : colour_picture img -> well_formed img.
Proof.
  unfold colour_picture, consistent, well_formed.
  intros [Hc Ha]. by destruct (itype img), (source img).
Qed.

(** The object [Img.pil] yields for a colour picture is a colour picture. *)
Lemma pil_colour img fs im ev :
  colour_picture img -> pil img fs = (Ok im, fs, ev) ->
  cv2.accepts (np_array im) = true.
Proof.
  destruct img as [src tag md mac sz hh ww].
  unfold colour_picture, consistent, pil. simpl.
  destruct tag, src as [a|p]; try (by intros []); intros [_ Ha] H.
  - assert (Ha' : cv2.accepts (np.ascontiguousarray a) = true)
      by by rewrite accepts_ascontiguousarray.
    unfold bind in H. rewrite (call_cvtColor_ok _ _ _ Ha') in H.
    unfold lift, PILImageModule.fromarray in H. simpl in H.
    injection H as <- _. unfold cv2.accepts, np_array. simpl.
    pose proof (shape_ascontiguousarray a) as Hsh. unfold np.shape in Hsh.
    injection Hsh as -> -> _.
    unfold cv2.accepts in Ha. apply andb_true_iff in Ha as [-> _]. done.
  - unfold lift, PILImageModule.fromarray in H.
    pose proof (shape_ascontiguousarray a) as Hsh. unfold np.shape in Hsh.
    injection Hsh as Hh Hw Hc. rewrite Hc in H.
    unfold cv2.accepts in Ha. apply andb_true_iff in Ha as [Hhw Hch].
    assert (Hcond : (np.c a =? 2) || (np.c a =? 3) || (np.c a =? 4) = true).
    { destruct (np.c a =? 3), (np.c a =? 4); simpl in *; try done.
      all: by rewrite ?orb_true_r. }
    rewrite Hcond in H. injection H as <- _.
    unfold cv2.accepts, np_array. simpl. rewrite ?Hh, ?Hw, ?Hc, Hhw, Hch. done.
  - by injection H as <- _.
Qed.

(** C1. Under the contracts of the codecs (the object codec of the
    container of [path] keeps the [exif] option, the EXIF codec keeps the
    UserComment field) and for metadata [md] that is JSON-serializable:
    if an image constructed with metadata [md] from a colour picture is
    saved with metadata embedding on, with no [exif] option of the caller's,
    and the save succeeds, then loading the path with [load_metadata] set
    succeeds for every requested tag and yields metadata equal to [md]. *)
Theorem C1_metadata_roundtrip
    (src : Source) (tag tag' : ImgType) (md : PyObject) (mac : bool) (img : Img)
    (path : PathLike) (p : string) (kwargs : gmap string kwval)
    (fs0 fs0' fs fs' : gmap string File) (ev0 ev : list Call) :
  pil_codec_keeps_exif p ->
  piexif_keeps_user_comment ->
  json_serializable md ->
  __init__ src tag (Some md) mac fs0 = (Ok img, fs0', ev0) ->
  colour_picture img ->
  path_str path = Some p ->
  kwargs !! "exif" = None ->
  save img path true kwargs fs = (Ok tt, fs', ev) ->
  exists img' ev',
    open path tag' true fs' = (Ok img', fs', ev')
    /\ metadata img' = Some md
    /\ itype img' = tag'.
Proof.
  intros Hpil Hexif (s & Hs & Hloads) Hinit Hcol Hp Hkw Hsave.
  destruct (init_fields _ _ _ _ _ _ _ _ Hinit) as (_ & _ & Hmd).
  pose proof (colour_picture_well_formed _ Hcol) as Hwf.
  assert (Hshould : should_save_metadata img true = true).
  { unfold should_save_metadata. rewrite Hmd. done. }
  assert (Hrouted : routed_to_object_encoder img true = true).
  { unfold routed_to_object_encoder. by rewrite Hshould. }
  (* the EXIF block was produced, since the save went through *)
  assert (Hready : metadata_ready img true kwargs).
  { intros _. split; [exact Hkw|]. exists md, s.
    destruct (piexif_dump
                {[ "Exif" := {[ piexif.ExifIFD.UserComment := encode_utf8 s ]} ]})
      as [b|e] eqn:Hb; [by exists b|].
    exfalso. destruct (pil_run img fs Hwf) as [im Him].
    unfold save in Hsave. rewrite Hp, Hmd, Hkw in Hsave. simpl in Hsave.
    destruct (itype img); unfold bind at 1 in Hsave; rewrite Him in Hsave;
      unfold bind, lift in Hsave; rewrite Hs, Hb in Hsave; discriminate. }
  destruct (save_object_run img path p true kwargs fs Hp Hwf Hrouted Hready)
    as (im & kw & Him & Hrun & Hblock & _).
  destruct (Hblock Hshould) as (md' & s' & b & Hmd' & Hs' & Hb & Hkwexif).
  assert (md' = md) as -> by congruence.
  assert (s' = s) as -> by congruence.
  rewrite Hrun in Hsave.
  destruct (pil_encode p im kw) as [f|e] eqn:Henc; [|discriminate].
  injection Hsave as <- _.
  destruct (Hpil im kw f Henc) as (im' & Hdec & Hinfo & Hw & Hh & Hbands).
  rewrite Hkwexif in Hinfo. simpl in Hinfo.
  destruct (Hexif _ _ Hb) as (d & ifd & Hload & Hd & Hifd).
  apply (open_with_metadata path p tag' (<[p := f]> fs) f im' (Some md)); auto.
  - apply lookup_insert_eq.
  - rewrite (read_metadata_exif _ _ _ Hinfo), Hload, Hd, Hifd, Hloads. done.
  - pose proof (pil_colour img fs im _ Hcol Him) as Hacc.
    unfold cv2.accepts, np_array in *. simpl in *. by rewrite Hw, Hh, Hbands.
Qed.

End RoundTrip.

(** ** The reference collaborators meet the contracts *)

Lemma mock_pil_codec_keeps_exif (p : string) :
  pil_codec_keeps_exif (collab := Mock.collaborators) p.
Proof.
  intros im kwargs f Henc. simpl in Henc. unfold Mock.encode_pil in Henc.
  injection Henc as <-. eexists. split; [reflexivity|]. simpl.
  split; [|done].
  destruct (kwargs !! "exif") as [[b|z|s|b]|]; simpl;
    first [apply lookup_empty | apply lookup_singleton_eq].
Qed.

Lemma mock_piexif_keeps_user_comment :
  piexif_keeps_user_comment (collab := Mock.collaborators).
Proof.
  intros b blob Hdump. simpl in Hdump. unfold Mock.exif_dump in Hdump.
  rewrite lookup_singleton_eq in Hdump. simpl in Hdump.
  rewrite lookup_singleton_eq in Hdump. injection Hdump as <-.
  eexists _, _. split; [reflexivity|]. split.
  - rewrite lookup_insert_ne by done. apply lookup_singleton_eq.
  - apply lookup_singleton_eq.
Qed.

Lemma mock_json_serializable_empty_mapping :
  json_serializable (collab := Mock.collaborators) Mock.empty_mapping.
Proof. exists Mock.empty_mapping. split; reflexivity. Qed.

(** The reference picture with the empty mapping as metadata, saved and
    loaded back as RGB. *)
Lemma C1_metadata_roundtrip_witness :
  exists img' ev',
    open (PyStr "out.jpg") RGB true
      (files_of (save Mock.bgr2x2 (PyStr "out.jpg") true ∅ ∅))
    = (Ok img', files_of (save Mock.bgr2x2 (PyStr "out.jpg") true ∅ ∅), ev')
    /\ metadata img' = Some Mock.empty_mapping
    /\ itype img' = RGB.
Proof.
  apply (C1_metadata_roundtrip (collab := Mock.collaborators)
           (SArr Mock.arr2x2) BGR RGB Mock.empty_mapping true Mock.bgr2x2
           (PyStr "out.jpg") "out.jpg" ∅ ∅ ∅ ∅
           (files_of (save Mock.bgr2x2 (PyStr "out.jpg") true ∅ ∅))
           [] (calls_of (save Mock.bgr2x2 (PyStr "out.jpg") true ∅ ∅))).
  - apply mock_pil_codec_keeps_exif.
  - apply mock_piexif_keeps_user_comment.
  - apply mock_json_serializable_empty_mapping.
  - reflexivity.
  - split; [exact I | reflexivity].
  - reflexivity.
  - reflexivity.
  - reflexivity.
Defined.

(** * Further properties *)

(** ** Inverting a run *)

Section Inversion.
Context {collab : Collaborators}.

Lemma bind_inv {A B} (m : M A) (k : A -> M B) fs b fs' ev :
  bind m k fs = (Ok b, fs', ev) ->
  exists a fs1 ev1 ev2,
    m fs = (Ok a, fs1, ev1) /\ k a fs1 = (Ok b, fs', ev2) /\ ev = ev1 ++ ev2.
Proof.
  unfold bind. destruct (m fs) as [[[a|e] fs1] ev1]; [|discriminate].
  destruct (k a fs1) as [[r fs2] ev2] eqn:Hk. intros H. injection H as -> -> <-.
  by exists a, fs1, ev1, ev2.
Qed.

Lemma bind_run {A B} (m : M A) (k : A -> M B) fs :
  bind m k fs
  = match m fs with
    | (Ok a, fs1, ev1) =>
        (result_of (k a fs1), files_of (k a fs1), ev1 ++ calls_of (k a fs1))
    | (Err e, fs1, ev1) => (Err e, fs1, ev1)
    end.
Proof.
  unfold bind. destruct (m fs) as [[[a|e] fs1] ev1]; [|reflexivity].
  by destruct (k a fs1) as [[r fs2] ev2].
Qed.

Lemma read_only_bind {A B} (m : M A) (k : A -> M B) :
  read_only m -> (forall a, read_only (k a)) -> read_only (bind m k).
Proof.
  intros Hm Hk fs. rewrite bind_run. specialize (Hm fs).
  destruct (m fs) as [[[a|e] fs1] ev1]; unfold files_of in *; simpl in *; subst.
  - apply Hk.
  - reflexivity.
Qed.

Lemma only_writes_bind p {A B} (m : M A) (k : A -> M B) :
  only_writes p m -> (forall a, only_writes p (k a)) -> only_writes p (bind m k).
Proof.
  intros Hm Hk fs q Hq. rewrite bind_run. specialize (Hm fs q Hq).
  destruct (m fs) as [[[a|e] fs1] ev1]; unfold files_of in *; simpl in *.
  - rewrite <- Hm. by apply Hk.
  - exact Hm.
Qed.

Lemma read_only_only_writes p {A} (m : M A) : read_only m -> only_writes p m.
Proof. intros Hm fs q _. by rewrite Hm. Qed.

Lemma read_only_ret {A} (a : A) : read_only (ret a).
Proof. by intros fs. Qed.
Lemma read_only_raise {A} (e : exn) : read_only (@raise _ A e).
Proof. by intros fs. Qed.
Lemma read_only_lift {A} (r : Result A) : read_only (lift r).
Proof. by intros fs. Qed.
Lemma read_only_emit x : read_only (emit x).
Proof. by intros fs. Qed.

Lemma read_only_call_cvtColor a code : read_only (call_cvtColor a code).
Proof.
  apply read_only_bind; [apply read_only_emit|]. intros _. apply read_only_lift.
Qed.

Lemma read_only_call_imread p : read_only (call_imread p).
Proof. apply read_only_bind; [apply read_only_emit|]. by intros _ fs. Qed.

Lemma read_only_call_pil_open p : read_only (call_pil_open p).
Proof.
  apply read_only_bind; [apply read_only_emit|]. intros _ fs.
  by destruct (fs !! p).
Qed.

Lemma only_writes_call_imwrite p a : only_writes p (call_imwrite p a).
Proof.
  apply only_writes_bind; [apply read_only_only_writes, read_only_emit|].
  intros _ fs q Hq.
  destruct (cv2_encode p a) as [[f|]|e]; unfold files_of; simpl; [|done|done].
  by rewrite lookup_insert_ne.
Qed.

Lemma only_writes_call_pil_save p im kw : only_writes p (call_pil_save p im kw).
Proof.
  apply only_writes_bind; [apply read_only_only_writes, read_only_emit|].
  intros _ fs q Hq. destruct (pil_encode p im kw); unfold files_of; simpl; [|done].
  by rewrite lookup_insert_ne.
Qed.

End Inversion.

Create HintDb frame.
#[local] Hint Resolve read_only_ret read_only_raise read_only_lift read_only_emit
  read_only_call_cvtColor read_only_call_imread read_only_call_pil_open
  : frame.

(** ** Construction *)

Section ConstructionFacts.
Context {collab : Collaborators}.

Lemma read_only_init src tag md mac : read_only (__init__ src tag md mac).
Proof.
  unfold __init__. apply read_only_bind.
  - destruct tag, src as [a|p]; auto with frame;
      destruct (negb (np.c_contiguous a)), mac; auto with frame;
      apply read_only_bind; auto with frame.
  - intros _. apply read_only_bind; auto with frame.
Qed.

(** What [__init__] returns, case by case. *)
Lemma init_run src tag md mac fs :
  __init__ src tag md mac fs
  = match tag, src with
    | PIL, SPil p =>
        (Ok (mk_Img src tag md mac
               (mk_ImgSize (PILImageModule.width p) (PILImageModule.height p))
               (PILImageModule.height p) (PILImageModule.width p)), fs, [])
    | (BGR | RGB), SArr a =>
        (Ok (mk_Img src tag md mac (mk_ImgSize (np.w a) (np.h a)) (np.h a) (np.w a)),
         fs,
         if negb (np.c_contiguous a) && negb mac then [noncontiguous_warning] else [])
    | PIL, SArr _ =>
        (Err (RuntimeError "Set source type to PIL but source isn't a PIL Image"),
         fs, [])
    | (BGR | RGB), SPil _ =>
        (Err (RuntimeError
                ("Set source to " ++ itype_name tag ++ " but isn't an np.ndarray")),
         fs, [])
    end.
Proof.
  unfold __init__. destruct tag, src as [a|p]; try reflexivity;
    by destruct (np.c_contiguous a), mac.
Qed.


End ConstructionFacts.

#[local] Hint Resolve read_only_init : frame.


(** ** Converters *)

Section ConverterFacts.
Context {collab : Collaborators}.

Lemma read_only_rgb img : read_only (rgb img).
Proof.
  unfold rgb. apply read_only_bind.
  - destruct (itype img), (source img); auto with frame.
  - intros arr. destruct (make_arrays_contiguous img); auto with frame.
Qed.

Lemma read_only_bgr img : read_only (bgr img).
Proof.
  unfold bgr. apply read_only_bind.
  - destruct (itype img), (source img); auto with frame.
  - intros arr. destruct (make_arrays_contiguous img); auto with frame.
Qed.

Lemma read_only_pil img : read_only (pil img).
Proof.
  unfold pil. destruct (itype img), (source img); auto with frame.
  apply read_only_bind; auto with frame.
Qed.

(** X3. With layout normalisation on, every array [rgb] or [bgr] returns
    is contiguous, whatever the layout of the stored source. *)
Theorem converters_return_contiguous
    (img : Img) (fs fs' : gmap string File) (a : np.ndarray) (ev : list Call) :
  make_arrays_contiguous img = true ->
  rgb img fs = (Ok a, fs', ev) \/ bgr img fs = (Ok a, fs', ev) ->
  np.c_contiguous a = true.
Proof.
  intros Hmac [H|H]; unfold rgb, bgr in H; rewrite Hmac in H;
    apply bind_inv in H as (arr & fs1 & ev1 & ev2 & _ & H & _);
    injection H as <- _ _; apply c_contiguous_ascontiguousarray.
Qed.

Lemma call_cvtColor_calls a code fs :
  calls_of (call_cvtColor a code fs) = [CallCvtColor code].
Proof.
  destruct (cv2.accepts a) eqn:Ha.
  - by rewrite call_cvtColor_ok.
  - by rewrite call_cvtColor_err.
Qed.

(** X4. A converter makes no channel-order conversion when the image is
    already held in a form with the requested order, and exactly one
    otherwise: [rgb] converts only from BGR, [bgr] from RGB and from a PIL
    object, [pil] only from BGR.  Nothing else is recorded. *)
Theorem converters_convert_at_most_once (img : Img) (fs : gmap string File) :
  consistent img ->
  calls_of (rgb img fs)
  = match itype img with
    | BGR => [CallCvtColor cv2.COLOR_BGR2RGB]
    | _ => []
    end
  /\ calls_of (bgr img fs)
     = match itype img with
       | BGR => []
       | _ => [CallCvtColor cv2.COLOR_RGB2BGR]
       end
  /\ calls_of (pil img fs)
     = match itype img with
       | BGR => [CallCvtColor cv2.COLOR_BGR2RGB]
       | _ => []
       end.
Proof.
  destruct img as [src tag md mac sz hh ww]. unfold consistent. simpl.
  destruct tag, src as [a|p]; try done; intros _;
    unfold rgb, bgr, pil; simpl; rewrite ?bind_run;
    repeat match goal with
           | |- context [call_cvtColor ?x ?c fs] =>
               pose proof (call_cvtColor_calls x c fs);
               destruct (call_cvtColor x c fs) as [[[?|?] ?] ?]
           end;
    unfold calls_of in *; simpl in *; subst;
    destruct mac; done.
Qed.

Lemma elements_np_array_fromarray x im :
  PILImageModule.fromarray x = Ok im ->
  np.elements (np_array im) = np.elements x.
Proof.
  unfold PILImageModule.fromarray.
  destruct ((np.c x =? 2) || (np.c x =? 3) || (np.c x =? 4)); [|discriminate].
  intros H. injection H as <-. unfold np_array. simpl.
  apply elements_of_flat, elements_shaped.
Qed.

Lemma elements_swap_ascontiguousarray a :
  np.elements (cv2.swap_channels (np.ascontiguousarray a))
  = np.elements (cv2.swap_channels a).
Proof. by rewrite !elements_swap_channels, elements_ascontiguousarray. Qed.

(** X5. On a well-formed image in any form, the object [pil] returns and
    the array [rgb] returns hold the same picture: [np.array(img.pil())]
    and [img.rgb()] are equal element for element. *)
Theorem pil_agrees_with_rgb (img : Img) (fs : gmap string File) :
  well_formed img ->
  exists im a,
    result_of (pil img fs) = Ok im
    /\ result_of (rgb img fs) = Ok a
    /\ np.elements (np_array im) = np.elements a.
Proof.
  intros Hwf. destruct (pil_run img fs Hwf) as [im Him]. exists im.
  destruct img as [src tag md mac sz hh ww]. unfold well_formed in Hwf.
  simpl in Hwf. destruct tag, src as [a|p]; try done.
  - rewrite (rgb_of_bgr_run a md mac sz hh ww fs Hwf), Him.
    eexists. split; [reflexivity|]. split; [reflexivity|].
    unfold pil in Him. simpl in Him.
    assert (Ha : cv2.accepts (np.ascontiguousarray a) = true)
      by by rewrite accepts_ascontiguousarray.
    unfold bind in Him. rewrite (call_cvtColor_ok _ _ _ Ha) in Him.
    unfold lift in Him.
    destruct (PILImageModule.fromarray (cv2.swap_channels (np.ascontiguousarray a)))
      as [im'|e] eqn:Hfrom; [|discriminate].
    injection Him as ->.
    rewrite (elements_np_array_fromarray _ _ Hfrom).
    apply elements_swap_ascontiguousarray.
  - rewrite Him. unfold pil in Him. simpl in Him. unfold lift in Him.
    destruct (PILImageModule.fromarray (np.ascontiguousarray a))
      as [im'|e] eqn:Hfrom; [|discriminate].
    injection Him as ->.
    exists (if mac then np.ascontiguousarray a else a).
    split; [reflexivity|]. split; [by destruct mac|].
    rewrite (elements_np_array_fromarray _ _ Hfrom), elements_ascontiguousarray.
    destruct mac; by rewrite ?elements_ascontiguousarray.
  - rewrite Him. injection Him as <-.
    exists (if mac then np.ascontiguousarray (np_array p) else np_array p).
    split; [reflexivity|]. split; [by destruct mac|].
    destruct mac; by rewrite ?elements_ascontiguousarray.
Qed.

End ConverterFacts.

#[local] Hint Resolve read_only_rgb read_only_bgr read_only_pil : frame.

Lemma converters_return_contiguous_witness :
  np.c_contiguous (np.ascontiguousarray Mock.column0) = true.
Proof.
  apply (converters_return_contiguous Mock.rgb_column0 ∅ ∅
           (np.ascontiguousarray Mock.column0) []); [reflexivity|].
  left. reflexivity.
Defined.

Lemma converters_convert_at_most_once_witness :
  calls_of (rgb Mock.bgr2x2 ∅)
  = match itype Mock.bgr2x2 with
    | BGR => [CallCvtColor cv2.COLOR_BGR2RGB]
    | _ => []
    end
  /\ calls_of (bgr Mock.bgr2x2 ∅)
     = match itype Mock.bgr2x2 with
       | BGR => []
       | _ => [CallCvtColor cv2.COLOR_RGB2BGR]
       end
  /\ calls_of (pil Mock.bgr2x2 ∅)
     = match itype Mock.bgr2x2 with
       | BGR => [CallCvtColor cv2.COLOR_BGR2RGB]
       | _ => []
       end.
Proof. apply (converters_convert_at_most_once Mock.bgr2x2 ∅). exact I. Defined.

Lemma pil_agrees_with_rgb_witness :
  exists im a,
    result_of (pil Mock.bgr2x2 ∅) = Ok im
    /\ result_of (rgb Mock.bgr2x2 ∅) = Ok a
    /\ np.elements (np_array im) = np.elements a.
Proof. apply (pil_agrees_with_rgb Mock.bgr2x2 ∅). reflexivity. Defined.

Section SwapFacts.
Context {collab : Collaborators}.

Lemma swap_rb_involutive px : length px = 3 -> cv2.swap_rb (cv2.swap_rb px) = px.
Proof. destruct px as [|x [|y [|z [|]]]]; by intros. Qed.

Lemma swap_swap_elements a :
  np.c a = 3 ->
  map (map cv2.swap_rb) (map (map cv2.swap_rb) (np.elements a)) = np.elements a.
Proof.
  intros Hc. destruct (elements_shaped a) as [_ Hrows]. rewrite Hc in Hrows.
  rewrite map_map. rewrite <- (map_id (np.elements a)) at 2.
  apply map_ext_in. intros row Hrow. rewrite Forall_forall in Hrows.
  destruct (Hrows row) as [_ Hpx]; [by apply list_elem_of_In|].
  rewrite map_map. rewrite <- (map_id row) at 2.
  apply map_ext_in. intros px Hin. rewrite Forall_forall in Hpx.
  apply swap_rb_involutive, Hpx. by apply list_elem_of_In.
Qed.

(** X6. On a three-channel colour picture held in any of the three forms,
    [bgr] and [rgb] both succeed and return the same picture with channels
    0 and 2 exchanged: each is the other with every pixel swapped. *)
Theorem bgr_is_rgb_swapped (img : Img) (fs : gmap string File) :
  colour_picture img ->
  np.c (pixels img) = 3 ->
  exists r b,
    result_of (rgb img fs) = Ok r
    /\ result_of (bgr img fs) = Ok b
    /\ np.elements r = map (map cv2.swap_rb) (np.elements b)
    /\ np.elements b = map (map cv2.swap_rb) (np.elements r).
Proof.
  destruct img as [src tag md mac sz hh ww].
  unfold colour_picture, consistent, pixels. simpl.
  intros [Hcons Hacc] Hc.
  destruct tag, src as [a|p]; try done.
  - (* held as BGR *)
    rewrite (rgb_of_bgr_run a md mac sz hh ww fs Hacc).
    exists (cv2.swap_channels a), (if mac then np.ascontiguousarray a else a).
    split; [reflexivity|]. split; [by destruct mac|].
    assert (Hb : np.elements (if mac then np.ascontiguousarray a else a)
                 = np.elements a)
      by (destruct mac; by rewrite ?elements_ascontiguousarray).
    rewrite Hb, elements_swap_channels. split; [reflexivity|].
    by rewrite swap_swap_elements.
  - (* held as RGB *)
    rewrite (bgr_of_rgb_run a md mac sz hh ww fs Hacc).
    exists (if mac then np.ascontiguousarray a else a), (cv2.swap_channels a).
    split; [by destruct mac|]. split; [reflexivity|].
    assert (Hr : np.elements (if mac then np.ascontiguousarray a else a)
                 = np.elements a)
      by (destruct mac; by rewrite ?elements_ascontiguousarray).
    rewrite Hr, elements_swap_channels. split; [|reflexivity].
    by rewrite swap_swap_elements.
  - (* held as a PIL object *)
    exists (if mac then np.ascontiguousarray (np_array p) else np_array p),
      (cv2.swap_channels (np_array p)).
    split; [by destruct mac|]. split.
    + unfold bgr. simpl. rewrite bind_run, (call_cvtColor_ok _ _ _ Hacc).
      destruct mac; unfold result_of, ret; simpl;
        by rewrite ?ascontiguousarray_swap_channels.
    + assert (Hr : np.elements (if mac then np.ascontiguousarray (np_array p)
                                else np_array p) = np.elements (np_array p))
        by (destruct mac; by rewrite ?elements_ascontiguousarray).
      rewrite Hr, elements_swap_channels. split; [|reflexivity].
      by rewrite swap_swap_elements.
Qed.

End SwapFacts.

Lemma bgr_is_rgb_swapped_witness :
  exists r b,
    result_of (rgb Mock.pil_img2x2 ∅) = Ok r
    /\ result_of (bgr Mock.pil_img2x2 ∅) = Ok b
    /\ np.elements r = map (map cv2.swap_rb) (np.elements b)
    /\ np.elements b = map (map cv2.swap_rb) (np.elements r).
Proof.
  apply (bgr_is_rgb_swapped Mock.pil_img2x2 ∅); [split; [exact I|]|]; reflexivity.
Defined.

(** ** Loading *)

Section LoadFacts.
Context {collab : Collaborators}.

Lemma read_only_read_metadata im : read_only (read_metadata im).
Proof.
  unfold read_metadata. destruct (PILImageModule.info im !! "exif"); auto with frame.
  repeat (apply read_only_bind; [auto with frame|intros ?]). auto with frame.
Qed.

Lemma read_only_open path tag lm : read_only (open path tag lm).
Proof.
  pose proof read_only_read_metadata.
  unfold open. destruct (path_str path) as [p|]; auto with frame.
  destruct lm, tag; simpl;
    repeat first
      [ apply read_only_bind; [auto with frame|intros ?]
      | match goal with |- read_only (match ?x with _ => _ end) => destruct x end
      | solve [auto with frame] ].
Qed.

(** What a returned [__init__] tells about the image. *)
Lemma init_result src tag md mac fs img fs' ev :
  __init__ src tag md mac fs = (Ok img, fs', ev) ->
  source img = src /\ itype img = tag /\ metadata img = md
  /\ make_arrays_contiguous img = mac
  /\ img_invariant img /\ consistent img.
Proof.
  rewrite init_run. unfold img_invariant, consistent.
  destruct tag, src as [a|p]; intros H; try discriminate;
    injection H as <- _ _; simpl; auto 10.
Qed.

Lemma call_imread_run p fs :
  call_imread p fs = (Ok (fs !! p ≫= cv2_decode), fs, [CallImread p]).
Proof. reflexivity. Qed.

(** X7. Loading without metadata decodes a buffer with [cv2.imread] and an
    object with [PIL.Image.open], converting once (BGR to RGB) only when RGB
    is requested and the file was read.  A file [cv2.imread] cannot read
    ends the load with [RuntimeError] and no image.  An image that is
    returned has the requested tag, no metadata and layout normalisation
    on; no file is changed. *)
Theorem open_without_metadata
    (path : PathLike) (p : string) (tag : ImgType) (fs : gmap string File) :
  path_str path = Some p ->
  calls_of (open path tag false fs)
  = match tag with
    | BGR => [CallImread p]
    | RGB =>
        match fs !! p ≫= cv2_decode with
        | Some _ => [CallImread p; CallCvtColor cv2.COLOR_BGR2RGB]
        | None => [CallImread p]
        end
    | PIL => [CallPilOpen p]
    end
  /\ (tag <> PIL -> fs !! p ≫= cv2_decode = None ->
      open path tag false fs
      = (Err (RuntimeError "Failed to read with cv2"), fs, [CallImread p]))
  /\ (forall img fs' ev,
        open path tag false fs = (Ok img, fs', ev) ->
        fs' = fs /\ itype img = tag /\ metadata img = None
        /\ make_arrays_contiguous img = true).
Proof.
  intros Hp. split; [|split].
  - unfold open. rewrite Hp. simpl. destruct tag.
    + rewrite bind_run, call_imread_run.
      destruct (fs !! p ≫= cv2_decode) as [a|]; [|reflexivity].
      rewrite init_run. unfold calls_of. simpl. by rewrite andb_false_r.
    + rewrite bind_run, call_imread_run.
      destruct (fs !! p ≫= cv2_decode) as [a|]; [|reflexivity].
      rewrite bind_run. destruct (cv2.accepts a) eqn:Ha.
      * rewrite (call_cvtColor_ok _ _ _ Ha), init_run.
        unfold calls_of. simpl. by rewrite andb_false_r.
      * by rewrite (call_cvtColor_err _ _ _ Ha).
    + rewrite bind_run, call_pil_open_run.
      destruct (fs !! p) as [f|]; [|reflexivity].
      destruct (pil_decode f) as [im|e]; [|reflexivity].
      by rewrite init_run.
  - intros Htag Hnone. unfold open. rewrite Hp. simpl.
    destruct tag; [| |done]; by rewrite bind_run, call_imread_run, Hnone.
  - intros img fs' ev H.
    pose proof (read_only_open path tag false fs) as Hro.
    rewrite H in Hro. unfold files_of in Hro. simpl in Hro. split; [done|].
    unfold open in H. rewrite Hp in H. simpl in H.
    destruct tag; apply bind_inv in H as (x & fs1 & ev1 & ev2 & _ & H & _).
    + destruct x as [a|]; [|discriminate].
      by destruct (init_result _ _ _ _ _ _ _ _ H) as (_ & ? & ? & ? & _).
    + destruct x as [a|]; [|discriminate].
      apply bind_inv in H as (y & fs2 & ev3 & ev4 & _ & H & _).
      by destruct (init_result _ _ _ _ _ _ _ _ H) as (_ & ? & ? & ? & _).
    + by destruct (init_result _ _ _ _ _ _ _ _ H) as (_ & ? & ? & ? & _).
Qed.

(** X8. When loading with metadata returns an image, the file was decoded
    by the object decoder, and the metadata of the image is: [None] when the
    decoded object carries no EXIF block; otherwise the value [json.loads]
    returned on the UserComment field of the block, which is [None] when the
    field holds the JSON text [null].  So a block that [piexif] cannot
    load, a block without the field, or a field that is not valid JSON
    never yields an image: the load fails. *)
Theorem open_with_metadata_sound
    (path : PathLike) (p : string) (tag : ImgType) (fs fs' : gmap string File)
    (img : Img) (ev : list Call) :
  path_str path = Some p ->
  open path tag true fs = (Ok img, fs', ev) ->
  fs' = fs
  /\ itype img = tag
  /\ exists f im,
       fs !! p = Some f
       /\ pil_decode f = Ok im
       /\ match PILImageModule.info im !! "exif" with
          | None => metadata img = None
          | Some blob =>
              exists d ifd payload,
                piexif_load blob = Ok d
                /\ d !! "Exif" = Some ifd
                /\ ifd !! piexif.ExifIFD.UserComment = Some payload
                /\ json_loads payload = Ok (metadata img)
          end.
Proof.
  intros Hp H.
  pose proof (read_only_open path tag true fs) as Hro.
  rewrite H in Hro. unfold files_of in Hro. simpl in Hro. split; [done|].
  unfold open in H. rewrite Hp in H. simpl in H.
  apply bind_inv in H as (im & fs1 & ev1 & ev2 & Hopen & H & _).
  rewrite call_pil_open_run in Hopen.
  destruct (fs !! p) as [f|] eqn:Hf; [|discriminate].
  destruct (pil_decode f) as [im'|e] eqn:Hdec; [|discriminate].
  injection Hopen as -> <- _.
  apply bind_inv in H as (meta & fs2 & ev3 & ev4 & Hmeta & H & _).
  assert (Hfields : itype img = tag /\ metadata img = meta).
  { destruct tag.
    - apply bind_inv in H as (y & fs3 & ev5 & ev6 & _ & H & _).
      by destruct (init_result _ _ _ _ _ _ _ _ H) as (_ & ? & ? & _).
    - by destruct (init_result _ _ _ _ _ _ _ _ H) as (_ & ? & ? & _).
    - by destruct (init_result _ _ _ _ _ _ _ _ H) as (_ & ? & ? & _). }
  destruct Hfields as [Htag Hmd]. split; [done|].
  exists f, im. split; [done|]. split; [done|].
  destruct (PILImageModule.info im !! "exif") as [blob|] eqn:Hinfo.
  - rewrite (read_metadata_exif _ _ _ Hinfo) in Hmeta.
    destruct (piexif_load blob) as [d|] eqn:Hd; [|discriminate].
    destruct (d !! "Exif") as [ifd|] eqn:Hifd; [|discriminate].
    destruct (ifd !! piexif.ExifIFD.UserComment) as [payload|] eqn:Huc;
      [|discriminate].
    destruct (json_loads payload) as [m|] eqn:Hm; [|discriminate].
    injection Hmeta as <- _ _. exists d, ifd, payload. by rewrite Hmd.
  - rewrite (read_metadata_no_exif _ _ Hinfo) in Hmeta.
    injection Hmeta as <- _ _. done.
Qed.

End LoadFacts.

#[local] Hint Resolve read_only_open : frame.

(** ** Images returned by [open], [crop] and [resize] *)

Section Returned.
Context {collab : Collaborators} {resamplers : Resamplers}.

Lemma read_only_crop img r copy : read_only (crop img r copy).
Proof.
  unfold crop. destruct (itype img), (source img), copy; simpl; auto with frame;
    apply read_only_bind; auto with frame.
Qed.

Lemma read_only_resize img width height : read_only (resize img width height).
Proof.
  unfold resize. destruct (itype img), (source img); auto with frame;
    apply read_only_bind; auto with frame.
Qed.

Lemma open_ends_in_init path tag lm fs img fs' ev :
  open path tag lm fs = (Ok img, fs', ev) ->
  exists src md fs1 ev1, __init__ src tag md true fs1 = (Ok img, fs', ev1).
Proof.
  unfold open. destruct (path_str path) as [p|]; [|discriminate].
  destruct lm, tag; simpl; intros H;
    repeat match type of H with
           | bind _ _ _ = _ => apply bind_inv in H as (? & ? & ? & ? & _ & H & _)
           | match ?x with _ => _ end _ = _ => destruct x; [|discriminate]
           end;
    eauto.
Qed.

(** X9. Every image that [open], [crop] or [resize] returns comes out of
    [__init__] with layout normalisation on, whatever the policy of the
    receiver: its tag agrees with its source, and its cached [size], [h], [w]
    are the dimensions of its source. *)
Theorem returned_images_are_consistent
    (img' : Img) (fs fs' : gmap string File) (ev : list Call) :
  (exists path tag lm, open path tag lm fs = (Ok img', fs', ev))
  \/ (exists img r copy, crop img r copy fs = (Ok img', fs', ev))
  \/ (exists img width height, resize img width height fs = (Ok img', fs', ev)) ->
  consistent img' /\ img_invariant img' /\ make_arrays_contiguous img' = true.
Proof.
  assert (Hinit : forall src tag md fs1 ev1,
             __init__ src tag md true fs1 = (Ok img', fs', ev1) ->
             consistent img' /\ img_invariant img'
             /\ make_arrays_contiguous img' = true).
  { intros src tag md fs1 ev1 H.
    by destruct (init_result _ _ _ _ _ _ _ _ H) as (_ & _ & _ & ? & ? & ?). }
  intros [(path & tag & lm & H)|[(img & r & copy & H)|(img & wd & ht & H)]].
  - destruct (open_ends_in_init _ _ _ _ _ _ _ H) as (src & md & fs1 & ev1 & H').
    eauto.
  - unfold crop, raise in H.
    destruct (itype img), (source img), copy; cbn [negb] in H; try discriminate;
      first [ solve [eauto]
            | apply bind_inv in H as (? & ? & ? & ? & _ & H & _); eauto ].
  - unfold resize, raise in H.
    destruct (itype img), (source img); try discriminate;
      apply bind_inv in H as (? & ? & ? & ? & _ & H & _); eauto.
Qed.

End Returned.

Section CropResize.
Context {collab : Collaborators} {resamplers : Resamplers}.

(** X14. On a buffer image [crop] succeeds with either value of [copy],
    and the two results hold the same picture, element for element, with
    the same dimensions, tag and metadata.  They differ in layout only: the
    source stored by [copy=True] is always contiguous. *)
Theorem crop_copy_same_picture
    (img : Img) (a : np.ndarray) (r : Rectangle) (fs : gmap string File) :
  itype img <> PIL ->
  source img = SArr a ->
  exists view copied ev_view ev_copied av ac,
    crop img r false fs = (Ok view, fs, ev_view)
    /\ crop img r true fs = (Ok copied, fs, ev_copied)
    /\ source view = SArr av
    /\ source copied = SArr ac
    /\ np.elements ac = np.elements av
    /\ np.shape ac = np.shape av
    /\ np.c_contiguous ac = true
    /\ img_w copied = img_w view /\ img_h copied = img_h view
    /\ itype copied = itype view /\ metadata copied = metadata view.
Proof.
  intros Htag Hsrc. unfold crop. rewrite Hsrc.
  destruct (itype img) eqn:Etag; [| |done]; cbn [negb];
    rewrite !init_run; cbn [negb andb];
    eexists _, _, _, _, _, _;
    (split; [reflexivity|]); (split; [reflexivity|]);
    (split; [reflexivity|]); (split; [reflexivity|]);
    (split; [apply elements_copy|]); (split; [reflexivity|]);
    (split; [apply c_contiguous_of_flat|]); done.
Qed.

(** X15. [resize] fails only when the resampler does, with the resampler's
    error and no file changed.  When resamplers return the size they are
    asked for, the image [resize] returns has width [width] and height
    [height], and the tag and the metadata of the receiver. *)
Theorem resize_dimensions
    (img : Img) (width height : Z) (fs : gmap string File) :
  resamplers_keep_size ->
  consistent img ->
  match resize img width height fs with
  | (Ok img', fs', _) =>
      fs' = fs
      /\ Z.of_nat (img_w img') = width
      /\ Z.of_nat (img_h img') = height
      /\ size img' = mk_ImgSize (img_w img') (img_h img')
      /\ itype img' = itype img
      /\ metadata img' = metadata img
  | (Err e, fs', _) =>
      fs' = fs
      /\ match source img with
         | SArr a => cv2_resize a (width, height) = Err e
         | SPil p => pil_resize p (width, height) = Err e
         end
  end.
Proof.
  intros [Hcv Hpil] Hcons. unfold consistent in Hcons. unfold resize.
  destruct (itype img) eqn:Etag, (source img) as [a|p] eqn:Esrc; try done;
    rewrite bind_run; unfold lift.
  - destruct (cv2_resize a (width, height)) as [out|e] eqn:Hout; [|done].
    rewrite init_run. destruct (Hcv _ _ _ _ Hout) as [Hw Hh].
    unfold result_of, files_of. simpl. auto 10.
  - destruct (cv2_resize a (width, height)) as [out|e] eqn:Hout; [|done].
    rewrite init_run. destruct (Hcv _ _ _ _ Hout) as [Hw Hh].
    unfold result_of, files_of. simpl. auto 10.
  - destruct (pil_resize p (width, height)) as [out|e] eqn:Hout; [|done].
    rewrite init_run. destruct (Hpil _ _ _ _ Hout) as [Hw Hh].
    unfold result_of, files_of. simpl. auto 10.
Qed.

End CropResize.

Lemma mock_resamplers_keep_size :
  resamplers_keep_size (resamplers := MockFurther.resamplers).
Proof.
  assert (Hn : forall a width height out,
             MockFurther.nearest a (width, height) = Ok out ->
             Z.of_nat (np.w out) = width /\ Z.of_nat (np.h out) = height).
  { intros a width height out. unfold MockFurther.nearest.
    destruct (Z.ltb_spec 0 width) as [Hw|Hw], (Z.ltb_spec 0 height) as [Hh|Hh];
      simpl; try discriminate.
    intros Hout. injection Hout as <-. simpl. lia. }
  split; [exact Hn|].
  intros p width height out. simpl. unfold MockFurther.nearest_pil.
  destruct (MockFurther.nearest (np_array p) (width, height)) as [o|e] eqn:Ho;
    [|discriminate].
  intros H. injection H as <-. simpl. by apply (Hn (np_array p)).
Qed.

Lemma crop_copy_same_picture_witness :
  exists view copied ev_view ev_copied av ac,
    crop Mock.bgr2x2 (mk_Rectangle 0 0 0 1) false ∅ = (Ok view, ∅, ev_view)
    /\ crop Mock.bgr2x2 (mk_Rectangle 0 0 0 1) true ∅ = (Ok copied, ∅, ev_copied)
    /\ source view = SArr av
    /\ source copied = SArr ac
    /\ np.elements ac = np.elements av
    /\ np.shape ac = np.shape av
    /\ np.c_contiguous ac = true
    /\ img_w copied = img_w view /\ img_h copied = img_h view
    /\ itype copied = itype view /\ metadata copied = metadata view.
Proof.
  apply (crop_copy_same_picture Mock.bgr2x2 Mock.arr2x2 (mk_Rectangle 0 0 0 1) ∅);
    [discriminate | reflexivity].
Defined.

(** The reference picture enlarged to 4 by 2. *)
Lemma resize_dimensions_witness :
  match resize (resamplers := MockFurther.resamplers) Mock.bgr2x2 4 2 ∅ with
  | (Ok img', fs', _) =>
      fs' = ∅
      /\ Z.of_nat (img_w img') = 4%Z
      /\ Z.of_nat (img_h img') = 2%Z
      /\ size img' = mk_ImgSize (img_w img') (img_h img')
      /\ itype img' = itype Mock.bgr2x2
      /\ metadata img' = metadata Mock.bgr2x2
  | (Err e, fs', _) =>
      fs' = ∅
      /\ match source Mock.bgr2x2 with
         | SArr a => MockFurther.nearest a (4, 2)%Z = Err e
         | SPil p => MockFurther.nearest_pil p (4, 2)%Z = Err e
         end
  end.
Proof.
  apply (resize_dimensions (resamplers := MockFurther.resamplers) Mock.bgr2x2 4 2 ∅).
  - apply mock_resamplers_keep_size.
  - exact I.
Defined.

(** ** Saving: what is written, and with which options *)

Ltac solve_read_only :=
  repeat first
    [ solve [auto with frame]
    | apply read_only_bind; [|intros ?]
    | match goal with
      | |- read_only (match ?x with _ => _ end) => destruct x
      end ].

Ltac solve_only_writes :=
  repeat first
    [ apply only_writes_call_imwrite
    | apply only_writes_call_pil_save
    | apply read_only_only_writes; solve [solve_read_only]
    | apply only_writes_bind; [|intros ?]
    | match goal with
      | |- only_writes _ (match ?x with _ => _ end) => destruct x
      end ].

Section SaveFacts.
Context {collab : Collaborators}.

(** X10. [save] changes no file other than the one at [path]; [__init__],
    the three converters, [open] and [crop] change no file at all. *)
Theorem only_save_writes_and_only_at_path
    (img : Img) (path : PathLike) (p : string) (sm : bool)
    (kwargs : gmap string kwval) :
  path_str path = Some p ->
  only_writes p (save img path sm kwargs)
  /\ read_only (rgb img) /\ read_only (bgr img) /\ read_only (pil img)
  /\ (forall r copy, read_only (crop img r copy))
  /\ (forall path' tag lm, read_only (open path' tag lm))
  /\ (forall src tag md mac, read_only (__init__ src tag md mac)).
Proof.
  intros Hp. split; [|auto 10 using read_only_crop with frame].
  unfold save. rewrite Hp. solve_only_writes.
Qed.

(** [save] on the object route, with the options it passes on. *)
Lemma save_object_run_options img path p sm kwargs fs :
  path_str path = Some p ->
  well_formed img ->
  routed_to_object_encoder img sm = true ->
  metadata_ready img sm kwargs ->
  exists im kw0,
    save img path sm kwargs fs
    = match pil_encode p im (with_default_optimize kw0) with
      | Ok f => (Ok tt, <[p := f]> fs,
                 pil_conversions (itype img)
                 ++ [CallPilSave p im (with_default_optimize kw0)])
      | Err e => (Err e, fs,
                  pil_conversions (itype img)
                  ++ [CallPilSave p im (with_default_optimize kw0)])
      end
    /\ (should_save_metadata img sm = true ->
        exists md s b,
          metadata img = Some md
          /\ json_dumps md = Ok s
          /\ piexif_dump
               {[ "Exif" := {[ piexif.ExifIFD.UserComment := encode_utf8 s ]} ]}
             = Ok b
          /\ kw0 = <["exif" := KwBytes b]> kwargs)
    /\ (should_save_metadata img sm = false -> kw0 = kwargs).
Proof.
  intros Hp Hwf Hrouted Hready.
  destruct (pil_run img fs Hwf) as [im Him].
  unfold routed_to_object_encoder in Hrouted. unfold metadata_ready in Hready.
  unfold save. rewrite Hp. fold (should_save_metadata img sm).
  assert (Hcall : forall kw, call_pil_save p im kw fs
            = match pil_encode p im kw with
              | Ok f => (Ok tt, <[p := f]> fs, [CallPilSave p im kw])
              | Err e => (Err e, fs, [CallPilSave p im kw])
              end).
  { intros kw. unfold call_pil_save, bind, emit. by destruct (pil_encode p im kw). }
  destruct (should_save_metadata img sm) eqn:Es.
  - destruct Hready as (Hexif & md & s & b & Hmd & Hs & Hb); [done|].
    exists im, (<["exif" := KwBytes b]> kwargs).
    split; [|split; [|done]].
    + rewrite Hmd, Hexif.
      destruct (itype img); unfold bind at 1; rewrite Him;
        unfold bind, lift, ret; rewrite Hs, Hb; simpl;
        fold (with_default_optimize (<["exif" := KwBytes b]> kwargs));
        rewrite Hcall;
        by destruct (pil_encode p im
                       (with_default_optimize (<["exif" := KwBytes b]> kwargs))).
    + intros _. by exists md, s, b.
  - simpl in Hrouted. destruct (itype img) eqn:Etag; try done.
    exists im, kwargs. split; [|split; [done|done]].
    unfold bind at 1. rewrite Him.
    destruct (metadata img);
      unfold bind, ret; simpl; fold (with_default_optimize kwargs);
      rewrite Hcall;
      by destruct (pil_encode p im (with_default_optimize kwargs)).
Qed.

(** X11. On the object route, [save] calls the object encoder once, with
    the caller's options and two additions: [optimize=True] unless the
    caller set [optimize], in which case the caller's value is kept; and the
    [exif] block built from the metadata when the metadata is to be
    embedded, else the caller's own [exif] option untouched.  Every other
    option is passed on as given. *)
Theorem save_forwards_options
    (img : Img) (path : PathLike) (p : string) (sm : bool)
    (kwargs : gmap string kwval) (fs : gmap string File) :
  path_str path = Some p ->
  well_formed img ->
  routed_to_object_encoder img sm = true ->
  metadata_ready img sm kwargs ->
  exists im kw,
    calls_of (save img path sm kwargs fs)
    = pil_conversions (itype img) ++ [CallPilSave p im kw]
    /\ kw !! "optimize" = Some (default (KwBool true) (kwargs !! "optimize"))
    /\ (forall k, k <> "exif" -> k <> "optimize" -> kw !! k = kwargs !! k)
    /\ (should_save_metadata img sm = false -> kw !! "exif" = kwargs !! "exif")
    /\ (should_save_metadata img sm = true ->
        exists md s b,
          metadata img = Some md
          /\ json_dumps md = Ok s
          /\ piexif_dump
               {[ "Exif" := {[ piexif.ExifIFD.UserComment := encode_utf8 s ]} ]}
             = Ok b
          /\ kw !! "exif" = Some (KwBytes b)).
Proof.
  intros Hp Hwf Hrouted Hready.
  destruct (save_object_run_options img path p sm kwargs fs Hp Hwf Hrouted Hready)
    as (im & kw0 & Hrun & Hyes & Hno).
  exists im, (with_default_optimize kw0).
  assert (Hopt : forall k, k <> "optimize" ->
             with_default_optimize kw0 !! k = kw0 !! k).
  { intros k Hk. unfold with_default_optimize.
    destruct (kw0 !! "optimize"); [done|]. by rewrite lookup_insert_ne. }
  assert (Hkw0 : forall k, k <> "exif" -> kw0 !! k = kwargs !! k).
  { intros k Hk. destruct (should_save_metadata img sm).
    - destruct Hyes as (md & s & b & _ & _ & _ & ->); [done|].
      by rewrite lookup_insert_ne.
    - by rewrite Hno. }
  split; [|split; [|split; [|split]]].
  - rewrite Hrun. by destruct (pil_encode p im (with_default_optimize kw0)).
  - unfold with_default_optimize. rewrite <- (Hkw0 "optimize") by done.
    destruct (kw0 !! "optimize") eqn:Ho; simpl; [done|]. apply lookup_insert_eq.
  - intros k Hk1 Hk2. rewrite Hopt by done. by apply Hkw0.
  - intros Hs. rewrite Hopt by done. by rewrite (Hno Hs).
  - intros Hs. destruct (Hyes Hs) as (md & s & b & Hmd & Hs' & Hb & ->).
    exists md, s, b. repeat split; auto.
    rewrite Hopt by done. apply lookup_insert_eq.
Qed.

(** X12. Metadata that [json.dumps] rejects makes a save that is to embed
    it fail with the error of [json.dumps]; the conversion to an object has
    been made by then, but no encoder is called and no file is changed. *)
Theorem save_unserializable_metadata_fails
    (img : Img) (path : PathLike) (p : string) (md : PyObject) (e : exn)
    (kwargs : gmap string kwval) (fs : gmap string File) :
  path_str path = Some p ->
  well_formed img ->
  metadata img = Some md ->
  kwargs !! "exif" = None ->
  json_dumps md = Err e ->
  save img path true kwargs fs = (Err e, fs, pil_conversions (itype img)).
Proof.
  intros Hp Hwf Hmd Hexif Hdumps.
  destruct (pil_run img fs Hwf) as [im Him].
  unfold save. rewrite Hp, Hmd, Hexif. simpl.
  destruct (itype img); unfold bind at 1; rewrite Him;
    unfold bind, lift; rewrite Hdumps; simpl; by rewrite ?app_nil_r.
Qed.

End SaveFacts.

(** ** Saving and loading a buffer without metadata *)

Section BufferRoundTrip.
Context {collab : Collaborators}.

Lemma accepts_of_shape a b :
  np.shape a = np.shape b -> cv2.accepts a = cv2.accepts b.
Proof.
  unfold np.shape, cv2.accepts. intros H. injection H as -> -> ->. done.
Qed.

(** X13. A three-channel buffer image is saved without embedded metadata
    and the save returns.  If [cv2.imwrite] wrote the file, and the buffer
    codec reads back what it writes, then loading without metadata under the
    same tag returns the picture element for element: for RGB the conversion
    to BGR made before writing and the conversion to RGB made after reading
    cancel.  If [cv2.imwrite] returned [False], the save has returned all
    the same and no file was changed. *)
Theorem buffer_save_open_roundtrip
    (img : Img) (a : np.ndarray) (path : PathLike) (p : string) (sm : bool)
    (kwargs : gmap string kwval) (fs fs' : gmap string File) (ev : list Call) :
  cv2_codec_lossless p ->
  path_str path = Some p ->
  itype img <> PIL ->
  source img = SArr a ->
  cv2.accepts a = true ->
  np.c a = 3 ->
  should_save_metadata img sm = false ->
  save img path sm kwargs fs = (Ok tt, fs', ev) ->
  let handed := match itype img with
                | RGB => cv2.swap_channels a
                | _ => a
                end in
  (cv2_encode p handed <> Ok None ->
   exists img' a' ev',
     open path (itype img) false fs' = (Ok img', fs', ev')
     /\ source img' = SArr a'
     /\ np.elements a' = np.elements a
     /\ np.shape a' = np.shape a
     /\ metadata img' = None)
  /\ (cv2_encode p handed = Ok None -> fs' = fs).
Proof.
  intros Hcodec Hp Htag Hsrc Hacc Hc Hs Hsave handed. subst handed.
  rewrite (save_buffer_run img a path p sm kwargs fs Htag Hsrc Hp Hs) in Hsave.
  unfold open. rewrite Hp. simpl.
  destruct (itype img) eqn:Etag; [| |done].
  - (* BGR: written and read as it is *)
    rewrite call_imwrite_run in Hsave.
    destruct (cv2_encode p a) as [[f|]|e] eqn:Henc; [| |discriminate].
    + injection Hsave as <- _. split; [intros _|discriminate].
      destruct (Hcodec a f Hc Henc) as (a' & Hdec & Hel & Hsh).
      assert (Hl : <[p := f]> fs !! p = Some f) by apply lookup_insert_eq.
      rewrite bind_run, call_imread_run, Hl. simpl. rewrite Hdec.
      rewrite init_run. by eexists _, a', _.
    + injection Hsave as <- _. split; [done|done].
  - (* RGB: swapped before writing, swapped back after reading *)
    rewrite (convert_imwrite_run p a fs Hacc) in Hsave.
    destruct (cv2_encode p (cv2.swap_channels a)) as [[f|]|e] eqn:Henc;
      [| |discriminate].
    + injection Hsave as <- _. split; [intros _|discriminate].
      destruct (Hcodec (cv2.swap_channels a) f eq_refl Henc)
        as (a' & Hdec & Hel & Hsh).
      assert (Ha' : cv2.accepts a' = true).
      { rewrite (accepts_of_shape _ _ Hsh). by apply accepts_swap_channels. }
      assert (Hl : <[p := f]> fs !! p = Some f) by apply lookup_insert_eq.
      rewrite bind_run, call_imread_run, Hl. simpl. rewrite Hdec.
      rewrite bind_run, (call_cvtColor_ok _ _ _ Ha'), init_run.
      eexists _, (cv2.swap_channels a'), _.
      split; [reflexivity|]. split; [reflexivity|].
      split; [|split; [|reflexivity]].
      * rewrite elements_swap_channels, Hel, elements_swap_channels.
        by apply swap_swap_elements.
      * unfold np.shape in *. injection Hsh as Hh Hw _.
        unfold cv2.swap_channels in *. simpl in *. by rewrite Hh, Hw, Hc.
    + injection Hsave as <- _. split; [done|done].
Qed.

End BufferRoundTrip.

(** ** The further properties on the reference implementation *)

Lemma mock_cv2_codec_lossless (p : string) :
  cv2_codec_lossless (collab := Mock.collaborators) p.
Proof.
  intros a f Hc Henc. simpl in Henc. unfold Mock.encode_cv2, cv2.cvtColor in Henc.
  destruct (cv2.accepts a) eqn:Ha; [|discriminate].
  destruct (PILImageModule.fromarray (cv2.swap_channels a)) as [im|e] eqn:Hfrom;
    [|discriminate].
  destruct (String.prefix "/nonexistent/" p); [discriminate|].
  injection Henc as ->. rename Hfrom into Henc.
  pose proof (elements_np_array_fromarray _ _ Henc) as Hel.
  assert (Hsh : np.shape (np_array f) = np.shape (cv2.swap_channels a)).
  { unfold PILImageModule.fromarray in Henc. simpl in Henc.
    by injection Henc as <-. }
  assert (Hacc : cv2.accepts (np_array f) = true).
  { rewrite (accepts_of_shape _ _ Hsh). by apply accepts_swap_channels. }
  exists (cv2.swap_channels (np_array f)). split; [|split].
  - simpl. unfold Mock.decode_cv2, cv2.cvtColor. by rewrite Hacc.
  - rewrite elements_swap_channels, Hel, elements_swap_channels.
    by apply swap_swap_elements.
  - unfold np.shape in *. injection Hsh as Hh Hw _.
    unfold cv2.swap_channels in *. simpl in *. by rewrite Hh, Hw, Hc.
Qed.

(** A path with no file behind it, requested as a buffer. *)
Lemma open_without_metadata_witness :
  open (collab := Mock.collaborators) (PyStr "missing.png") BGR false ∅
  = (Err (RuntimeError "Failed to read with cv2"), ∅, [CallImread "missing.png"]).
Proof.
  apply (open_without_metadata (collab := Mock.collaborators)
           (PyStr "missing.png") "missing.png" BGR ∅);
    [reflexivity | discriminate | reflexivity].
Defined.

(** The photo with metadata, loaded as a PIL object. *)
Lemma open_with_metadata_sound_witness :
  MockFurther.disk = MockFurther.disk
  /\ itype MockFurther.loaded = PIL
  /\ exists f im,
       MockFurther.disk !! "photo.jpg" = Some f
       /\ Mock.decode_pil f = Ok im
       /\ match PILImageModule.info im !! "exif" with
          | None => metadata MockFurther.loaded = None
          | Some blob =>
              exists d ifd payload,
                Mock.exif_load blob = Ok d
                /\ d !! "Exif" = Some ifd
                /\ ifd !! piexif.ExifIFD.UserComment = Some payload
                /\ Mock.loads payload = Ok (metadata MockFurther.loaded)
          end.
Proof.
  apply (open_with_metadata_sound (collab := Mock.collaborators)
           (PyStr "photo.jpg") "photo.jpg" PIL MockFurther.disk MockFurther.disk
           MockFurther.loaded [CallPilOpen "photo.jpg"]); reflexivity.
Defined.

Lemma returned_images_are_consistent_witness :
  consistent MockFurther.loaded /\ img_invariant MockFurther.loaded
  /\ make_arrays_contiguous MockFurther.loaded = true.
Proof.
  apply (returned_images_are_consistent (collab := Mock.collaborators)
           (resamplers := MockFurther.resamplers)
           MockFurther.loaded MockFurther.disk MockFurther.disk
           [CallPilOpen "photo.jpg"]).
  left. by exists (PyStr "photo.jpg"), PIL, true.
Defined.

Lemma only_save_writes_and_only_at_path_witness :
  only_writes "out.jpg" (save Mock.bgr2x2 (PyStr "out.jpg") true ∅)
  /\ read_only (rgb Mock.bgr2x2) /\ read_only (bgr Mock.bgr2x2)
  /\ read_only (pil Mock.bgr2x2)
  /\ (forall r copy, read_only (crop Mock.bgr2x2 r copy))
  /\ (forall path' tag lm, read_only (collab := Mock.collaborators) (open path' tag lm))
  /\ (forall src tag md mac,
        read_only (collab := Mock.collaborators) (__init__ src tag md mac)).
Proof.
  apply (only_save_writes_and_only_at_path Mock.bgr2x2 (PyStr "out.jpg") "out.jpg"
           true ∅). reflexivity.
Defined.

(** The reference picture with metadata, saved with [optimize=False]. *)
Lemma save_forwards_options_witness :
  exists im kw,
    calls_of (save Mock.bgr2x2 (PyStr "out.jpg") true {[ "optimize" := KwBool false ]} ∅)
    = pil_conversions (itype Mock.bgr2x2) ++ [CallPilSave "out.jpg" im kw]
    /\ kw !! "optimize"
       = Some (default (KwBool true)
                 (({[ "optimize" := KwBool false ]} : gmap string kwval) !! "optimize"))
    /\ (forall k, k <> "exif" -> k <> "optimize" ->
        kw !! k = ({[ "optimize" := KwBool false ]} : gmap string kwval) !! k)
    /\ (should_save_metadata Mock.bgr2x2 true = false ->
        kw !! "exif" = ({[ "optimize" := KwBool false ]} : gmap string kwval) !! "exif")
    /\ (should_save_metadata Mock.bgr2x2 true = true ->
        exists md s b,
          metadata Mock.bgr2x2 = Some md
          /\ Mock.dumps md = Ok s
          /\ Mock.exif_dump
               {[ "Exif" := {[ piexif.ExifIFD.UserComment := encode_utf8 s ]} ]}
             = Ok b
          /\ kw !! "exif" = Some (KwBytes b)).
Proof.
  apply (save_forwards_options Mock.bgr2x2 (PyStr "out.jpg") "out.jpg" true
           {[ "optimize" := KwBool false ]} ∅).
  - reflexivity.
  - reflexivity.
  - reflexivity.
  - intros _. split; [reflexivity|].
    exists Mock.empty_mapping, Mock.empty_mapping.
    eexists. repeat split; reflexivity.
Defined.

Lemma save_unserializable_metadata_fails_witness :
  save MockFurther.unserializable (PyStr "out.jpg") true ∅ ∅
  = (Err TypeError, ∅, pil_conversions (itype MockFurther.unserializable)).
Proof.
  apply (save_unserializable_metadata_fails (collab := MockFurther.strict)
           MockFurther.unserializable (PyStr "out.jpg") "out.jpg" "set()" TypeError ∅ ∅);
    reflexivity.
Defined.

(** The reference picture held as RGB, saved and loaded back as RGB. *)
Lemma buffer_save_open_roundtrip_witness :
  exists img' a' ev',
    open (PyStr "out.png") (itype MockFurther.rgb2x2) false
      (files_of (save MockFurther.rgb2x2 (PyStr "out.png") true ∅ ∅))
    = (Ok img', files_of (save MockFurther.rgb2x2 (PyStr "out.png") true ∅ ∅), ev')
    /\ source img' = SArr a'
    /\ np.elements a' = np.elements Mock.arr2x2
    /\ np.shape a' = np.shape Mock.arr2x2
    /\ metadata img' = None.
Proof.
  apply (buffer_save_open_roundtrip (collab := Mock.collaborators)
           MockFurther.rgb2x2 Mock.arr2x2 (PyStr "out.png") "out.png" true ∅ ∅
           (files_of (save MockFurther.rgb2x2 (PyStr "out.png") true ∅ ∅))
           (calls_of (save MockFurther.rgb2x2 (PyStr "out.png") true ∅ ∅))).
  - apply mock_cv2_codec_lossless.
  - reflexivity.
  - discriminate.
  - reflexivity.
  - reflexivity.
  - reflexivity.
  - reflexivity.
  - reflexivity.
  - discriminate.
Defined.

(** ** Two edge cases on the reference implementation *)

(** A write that [cv2.imwrite] declines: [save] returns normally, nothing is
    on disk, and the load that follows fails. *)
Example save_returns_when_imwrite_declines :
  save MockFurther.rgb2x2 (PyStr "/nonexistent/out.png") true ∅ ∅
  = (Ok tt, ∅,
     [CallCvtColor cv2.COLOR_RGB2BGR;
      CallImwrite "/nonexistent/out.png" (cv2.swap_channels Mock.arr2x2)])
  /\ result_of (open (collab := Mock.collaborators)
                  (PyStr "/nonexistent/out.png") RGB false ∅)
     = Err (RuntimeError "Failed to read with cv2").
Proof. split; reflexivity. Qed.

(** A photo whose UserComment field holds the JSON text [null]: it loads,
    with metadata [None] although the EXIF block is there. *)
Example open_null_user_comment :
  match result_of
          (open (collab := Mock.collaborators) (PyStr "photo.jpg") PIL true
             {[ "photo.jpg" :=
                  PILImageModule.mk_Image 2 2 3 Mock.buf2x2
                    {[ "exif" := x01 :: encode_utf8 "null" ]} ]})
  with
  | Ok img => metadata img = None
  | Err _ => False
  end.
Proof. reflexivity. Qed.
